(** * Batched flight search: validator and miner neurons

    A shallow embedding of [template/protocol.py], [neurons/validator.py]
    and [neurons/miner.py].

    Conventions of the embedding.
    - A Python [float] that is a number is a rational ([Q]) and is
      compared as one; a price may also be NaN ([float]), which compares
      false with everything.  Infinities and rounding are not modelled.
    - A Python exception is a constructor of [exn]; code that can raise
      returns a [result].
    - Keyword arguments of a pydantic constructor are an association list
      from field names to dynamically typed values ([value]).
    - The random module is a stream of integers read in order ([rng]).
    - [bt.logging] calls leave nothing in the model, but the expressions
      their messages format are evaluated where they can raise. *)

From Stdlib Require Import List String Ascii ZArith QArith Qminmax Bool Lia.
From Stdlib Require Import Permutation Sorted.
Import ListNotations.

Local Open Scope string_scope.
Local Open Scope list_scope.
Local Open Scope Z_scope.

(** ** Exceptions and the error monad *)

Inductive exn : Type :=
| ValueError
| IndexError
| TypeError
| AttributeError (attr : string)
| ValidationError (field : string).

Inductive result (A : Type) : Type :=
| Ok (a : A)
| Raise (e : exn).

Arguments Ok {A} a.
Arguments Raise {A} e.

Definition bind {A B : Type} (m : result A) (k : A -> result B) : result B :=
  match m with
  | Ok a => k a
  | Raise e => Raise e
  end.

Notation "x <- m ;; k" := (bind m (fun x => k))
  (at level 61, m at next level, right associativity).

(** ** Dynamically typed values *)

Inductive value : Type :=
| VNone
| VStr (s : string)
| VInt (n : Z)
| VFloat (x : Q)
| VNaN.

(** Python truthiness, as used by [x or default]. *)
Definition truthy (v : value) : bool :=
  match v with
  | VNone => false
  | VStr s => negb (s =? "")%string
  | VInt n => negb (n =? 0)
  | VFloat x => negb (Qeq_bool x 0)
  | VNaN => true
  end.

Definition py_or (v d : value) : value := if truthy v then v else d.

Definition kwargs : Type := list (string * value).

Fixpoint kw_get (name : string) (kw : kwargs) : option value :=
  match kw with
  | [] => None
  | (k, v) :: rest => if (k =? name)%string then Some v else kw_get name rest
  end.

(** ** Rational comparisons *)

Definition Qltb (x y : Q) : bool := negb (Qle_bool y x).

(** Python's [max(a, b)]: the first argument unless the second is larger. *)
Definition py_max (a b : Q) : Q := if Qltb a b then b else a.

(** ** Floats that may be NaN *)

Inductive float : Type :=
| Finite (x : Q)
| NaN.

(** [a < b]: false when either side is NaN. *)
Definition flt_ltb (a b : float) : bool :=
  match a, b with
  | Finite x, Finite y => Qltb x y
  | _, _ => false
  end.

(** [a - b]: NaN when either side is NaN. *)
Definition flt_sub (a b : float) : float :=
  match a, b with
  | Finite x, Finite y => Finite (x - y)
  | _, _ => NaN
  end.

(** [max(a, b)] on floats: [b] when [b > a] holds, else [a]. *)
Definition py_max_float (a b : float) : float := if flt_ltb a b then b else a.

Definition of_float (a : float) : value :=
  match a with
  | Finite x => VFloat x
  | NaN => VNaN
  end.

(** ** pydantic field validation

    A field declared [Field(...)] is required: the constructor raises a
    validation error when the keyword is absent.  A field with a default
    takes it when the keyword is absent.  Keywords that name no field are
    ignored.  [ge]/[gt] bounds are checked on the values that are given. *)

Definition required_str (name : string) (kw : kwargs) : result string :=
  match kw_get name kw with
  | Some (VStr s) => Ok s
  | _ => Raise (ValidationError name)
  end.

Definition default_str (name : string) (d : string) (kw : kwargs) : result string :=
  match kw_get name kw with
  | None => Ok d
  | Some (VStr s) => Ok s
  | Some _ => Raise (ValidationError name)
  end.

Definition optional_str (name : string) (d : string) (kw : kwargs)
  : result (option string) :=
  match kw_get name kw with
  | None => Ok (Some d)
  | Some VNone => Ok None
  | Some (VStr s) => Ok (Some s)
  | Some _ => Raise (ValidationError name)
  end.

Definition optional_literal (name : string) (allowed : list string) (d : string)
  (kw : kwargs) : result (option string) :=
  match kw_get name kw with
  | None => Ok (Some d)
  | Some VNone => Ok None
  | Some (VStr s) =>
      if existsb (String.eqb s) allowed then Ok (Some s)
      else Raise (ValidationError name)
  | Some _ => Raise (ValidationError name)
  end.

Definition optional_int_ge (name : string) (lo d : Z) (kw : kwargs)
  : result (option Z) :=
  match kw_get name kw with
  | None => Ok (Some d)
  | Some VNone => Ok None
  | Some (VInt n) => if lo <=? n then Ok (Some n) else Raise (ValidationError name)
  | Some _ => Raise (ValidationError name)
  end.

Definition required_int_ge (name : string) (lo : Z) (kw : kwargs) : result Z :=
  match kw_get name kw with
  | Some (VInt n) => if lo <=? n then Ok n else Raise (ValidationError name)
  | _ => Raise (ValidationError name)
  end.

(** A [float] field accepts a float or an integer. *)
Definition as_float (v : value) : option Q :=
  match v with
  | VFloat x => Some x
  | VInt n => Some (inject_Z n)
  | _ => None
  end.

Definition required_float (name : string) (kw : kwargs) : result Q :=
  match kw_get name kw with
  | Some v =>
      match as_float v with
      | Some x => Ok x
      | None => Raise (ValidationError name)
      end
  | None => Raise (ValidationError name)
  end.

Definition required_float_gt (name : string) (lo : Q) (kw : kwargs) : result Q :=
  x <- required_float name kw ;;
  if Qltb lo x then Ok x else Raise (ValidationError name).

(** A [float] field without bounds accepts NaN as well. *)
Definition as_float_or_nan (v : value) : option float :=
  match v with
  | VFloat x => Some (Finite x)
  | VInt n => Some (Finite (inject_Z n))
  | VNaN => Some NaN
  | _ => None
  end.

Definition required_float_or_nan (name : string) (kw : kwargs) : result float :=
  match kw_get name kw with
  | Some v =>
      match as_float_or_nan v with
      | Some x => Ok x
      | None => Raise (ValidationError name)
      end
  | None => Raise (ValidationError name)
  end.

(** ** template/protocol.py *)

(** [bt.Synapse.dendrite]: the caller's terminal information. *)
Record TerminalInfo : Type := { hotkey : option string }.

Module Request.

Record FlightSearchRequest : Type := {
  date : string;
  departure_airport_code : string;
  arrival_airport_code : string;
  cabinClass : option string;
  adults : option Z;
  children : option Z;
  infants : option Z;
  market : string;
  currency : option string
}.

Definition cabin_classes : list string :=
  ["Economy"; "Business"; "First"; "Premium_Economy"].

(** The constructor [FlightSearchRequest] applied to keyword arguments. *)
Definition FlightSearchRequest_init (kw : kwargs) : result FlightSearchRequest :=
  d <- required_str "date" kw ;;
  dep <- required_str "departure_airport_code" kw ;;
  arr <- required_str "arrival_airport_code" kw ;;
  cab <- optional_literal "cabinClass" cabin_classes "Economy" kw ;;
  ad <- optional_int_ge "adults" 1 1 kw ;;
  ch <- optional_int_ge "children" 0 0 kw ;;
  inf <- optional_int_ge "infants" 0 0 kw ;;
  mk <- default_str "market" "US" kw ;;
  cur <- optional_str "currency" "USD" kw ;;
  Ok {| date := d; departure_airport_code := dep; arrival_airport_code := arr;
        cabinClass := cab; adults := ad; children := ch; infants := inf;
        market := mk; currency := cur |}.

Definition of_option_str (o : option string) : value :=
  match o with Some s => VStr s | None => VNone end.

Definition of_option_int (o : option Z) : value :=
  match o with Some n => VInt n | None => VNone end.

(** Attribute access [self.name]: the declared fields, and nothing else. *)
Definition FlightSearchRequest_getattr (self : FlightSearchRequest) (name : string)
  : result value :=
  if (name =? "date")%string then Ok (VStr (date self))
  else if (name =? "departure_airport_code")%string
       then Ok (VStr (departure_airport_code self))
  else if (name =? "arrival_airport_code")%string
       then Ok (VStr (arrival_airport_code self))
  else if (name =? "cabinClass")%string then Ok (of_option_str (cabinClass self))
  else if (name =? "adults")%string then Ok (of_option_int (adults self))
  else if (name =? "children")%string then Ok (of_option_int (children self))
  else if (name =? "infants")%string then Ok (of_option_int (infants self))
  else if (name =? "market")%string then Ok (VStr (market self))
  else if (name =? "currency")%string then Ok (of_option_str (currency self))
  else Raise (AttributeError name).

End Request.

Module Response.

Record FlightSearchResponse : Type := {
  market : string;
  price : float;
  currency : string;
  departure_time : string;
  arrival_time : string;
  departure_city : string;
  arrival_city : string;
  stops : Z;
  carrier : string;
  duration_duration : Q
}.

(** The constructor [FlightSearchResponse] applied to keyword arguments. *)
Definition FlightSearchResponse_init (kw : kwargs) : result FlightSearchResponse :=
  mk <- required_str "market" kw ;;
  pr <- required_float_or_nan "price" kw ;;
  cur <- required_str "currency" kw ;;
  dt <- required_str "departure_time" kw ;;
  at_ <- required_str "arrival_time" kw ;;
  dc <- required_str "departure_city" kw ;;
  ac <- required_str "arrival_city" kw ;;
  st <- required_int_ge "stops" 0 kw ;;
  ca <- required_str "carrier" kw ;;
  du <- required_float_gt "duration_duration" 0%Q kw ;;
  Ok {| market := mk; price := pr; currency := cur; departure_time := dt;
        arrival_time := at_; departure_city := dc; arrival_city := ac;
        stops := st; carrier := ca; duration_duration := du |}.

(** Attribute access [self.name]: the declared fields, and nothing else. *)
Definition FlightSearchResponse_getattr (self : FlightSearchResponse) (name : string)
  : result value :=
  if (name =? "market")%string then Ok (VStr (market self))
  else if (name =? "price")%string then Ok (of_float (price self))
  else if (name =? "currency")%string then Ok (VStr (currency self))
  else if (name =? "departure_time")%string then Ok (VStr (departure_time self))
  else if (name =? "arrival_time")%string then Ok (VStr (arrival_time self))
  else if (name =? "departure_city")%string then Ok (VStr (departure_city self))
  else if (name =? "arrival_city")%string then Ok (VStr (arrival_city self))
  else if (name =? "stops")%string then Ok (VInt (stops self))
  else if (name =? "carrier")%string then Ok (VStr (carrier self))
  else if (name =? "duration_duration")%string
       then Ok (VFloat (duration_duration self))
  else Raise (AttributeError name).

End Response.

Import Response.

Record FlightSearchBatchRequest : Type := {
  queries : list Request.FlightSearchRequest;
  dendrite : option TerminalInfo
}.

Record FlightSearchBatchResponse : Type := {
  responses : list (list FlightSearchResponse)
}.

(** ** The random module *)

Record rng : Type := { stream : nat -> Z; pos : nat }.

Definition next (g : rng) : Z * rng :=
  (stream g (pos g), {| stream := stream g; pos := S (pos g) |}).

(** [randbelow n]: an index below [n], for [n] positive. *)
Definition randbelow (n : nat) (g : rng) : nat * rng :=
  let (x, g') := next g in (Z.to_nat (x mod Z.of_nat n), g').

(** Computations that read random numbers and may raise. *)
Definition rand (A : Type) : Type := rng -> result (A * rng).

Definition retS {A : Type} (a : A) : rand A := fun g => Ok (a, g).

Definition bindS {A B : Type} (m : rand A) (k : A -> rand B) : rand B :=
  fun g =>
    match m g with
    | Ok (a, g') => k a g'
    | Raise e => Raise e
    end.

Definition liftS {A : Type} (r : result A) : rand A :=
  fun g =>
    match r with
    | Ok a => Ok (a, g)
    | Raise e => Raise e
    end.

Notation "x <~ m ;; k" := (bindS m (fun x => k))
  (at level 61, m at next level, right associativity).

(** [random.choice(seq)]: raises on an empty sequence. *)
Definition random_choice {A : Type} (seq : list A) : rand A :=
  fun g =>
    match seq with
    | [] => Raise IndexError
    | _ :: _ =>
        let (i, g') := randbelow (List.length seq) g in
        match nth_error seq i with
        | Some x => Ok (x, g')
        | None => Raise IndexError
        end
    end.

Fixpoint list_set {A : Type} (l : list A) (i : nat) (x : A) : list A :=
  match l, i with
  | [], _ => []
  | _ :: t, O => x :: t
  | h :: t, S i' => h :: list_set t i' x
  end.

(** [random.sample(population, 2)]: raises when fewer than two elements
    are available; otherwise draws from a pool, moving the pool's last
    element into the place of the one drawn.  This is how CPython draws
    from a population of up to 21 elements; from a larger one it redraws
    an index until it is a new one, which can draw other elements and
    read more random numbers, and gives two different positions as
    well. *)
Definition random_sample2 {A : Type} (population : list A) : rand (A * A) :=
  fun g =>
    let n := List.length population in
    if (n <? 2)%nat then Raise ValueError
    else
      let pool := population in
      let (j1, g1) := randbelow n g in
      match nth_error pool j1, nth_error pool (n - 1) with
      | Some r1, Some last1 =>
          let pool := list_set pool j1 last1 in
          let (j2, g2) := randbelow (n - 1) g1 in
          match nth_error pool j2 with
          | Some r2 => Ok ((r1, r2), g2)
          | None => Raise IndexError
          end
      | _, _ => Raise IndexError
      end.

(** [random.random()]: a float in the interval from 0 (included) to 1
    (excluded). *)
Definition random_random (g : rng) : Q * rng :=
  let (x, g') := next g in
  (Qmake (x mod 9007199254740992) 9007199254740992, g').

(** [random.uniform(a, b)] is [a + (b - a) * random()]. *)
Definition random_uniform (a b : Q) (g : rng) : Q * rng :=
  let (u, g') := random_random g in ((a + (b - a) * u)%Q, g').

(** ** neurons/validator.py: ranking and reward *)

(** [list.sort(key=lambda r: r.price)] compares keys with [<] only and is
    stable.  On prices without NaN, [<] is a total preorder, the stable
    order is unique and a stable insertion sort returns the list that
    [list.sort] returns.  A list in which no offer is priced below the one
    before it, NaN prices included, is one ascending run for [list.sort],
    which returns it unchanged, and so does this sort
    ([sort_run_unchanged]).  On other lists with NaN prices the order
    [list.sort] produces depends on its runs and merges, which are not
    modelled; no statement depends on the order of such a list. *)
Fixpoint insert_by_price (x : FlightSearchResponse) (l : list FlightSearchResponse)
  : list FlightSearchResponse :=
  match l with
  | [] => [x]
  | y :: t =>
      if flt_ltb (price y) (price x) then y :: insert_by_price x t
      else x :: y :: t
  end.

Fixpoint sort_by_price (l : list FlightSearchResponse) : list FlightSearchResponse :=
  match l with
  | [] => []
  | x :: t => insert_by_price x (sort_by_price t)
  end.

(** Step 3 of [Validator.forward]: every response list of every batch
    response is appended to [all_responses], in order. *)
Definition collect (batch_responses : list FlightSearchBatchResponse)
  : list FlightSearchResponse :=
  fold_left
    (fun all_responses batch_resp =>
       fold_left (fun acc resp_list => acc ++ resp_list)
         (responses batch_resp) all_responses)
    batch_responses [].

(** Step 4, the loop over the ranked responses: the profit is computed,
    the message of the logging call reads [resp.uid], and [backpropagate]
    is called.  The result is the calls of [backpropagate] made, in
    order, and the exception that ended the loop, if one did. *)
Fixpoint reward_loop (best_price : float) (all_responses : list FlightSearchResponse)
  : list (FlightSearchResponse * float) * option exn :=
  match all_responses with
  | [] => ([], None)
  | resp :: rest =>
      let profit := py_max_float (Finite 0) (flt_sub best_price (price resp)) in
      match FlightSearchResponse_getattr resp "uid" with
      | Raise e => ([], Some e)
      | Ok _ =>
          let (calls, stopped) := reward_loop best_price rest in
          ((resp, profit) :: calls, stopped)
      end
  end.

(** A slice [l[:stop]]. *)
Definition py_slice_to {A : Type} (l : list A) (stop : value) : result (list A) :=
  match stop with
  | VNone => Ok l
  | VInt n =>
      if 0 <=? n then Ok (firstn (Z.to_nat n) l)
      else Ok (firstn (Z.to_nat (Z.of_nat (List.length l) + n)) l)
  | _ => Raise TypeError
  end.

(** What one call of [forward] does: the value returned or the exception
    raised, the calls of [backpropagate] made, and whether [save_state]
    ran. *)
Record outcome : Type := {
  returned : result (list FlightSearchResponse);
  backpropagated : list (FlightSearchResponse * float);
  saved : bool
}.

Definition raised (e : exn) : outcome :=
  {| returned := Raise e; backpropagated := []; saved := false |}.

(** Steps 3 to 5 of [Validator.forward], from the batch responses. *)
Definition forward_responses (synapse : Request.FlightSearchRequest)
  (batch_responses : list FlightSearchBatchResponse) : outcome :=
  let all_responses := collect batch_responses in
  match all_responses with
  | [] => {| returned := Ok []; backpropagated := []; saved := false |}
  | _ :: _ =>
      let all_responses := sort_by_price all_responses in
      match all_responses with
      | [] => raised IndexError
      | first :: _ =>
          let best_price := price first in
          match reward_loop best_price all_responses with
          | (calls, Some e) =>
              {| returned := Raise e; backpropagated := calls; saved := false |}
          | (calls, None) =>
              {| returned :=
                   (limit <- Request.FlightSearchRequest_getattr synapse "limit" ;;
                    py_slice_to all_responses limit);
                 backpropagated := calls;
                 saved := true |}
          end
      end
  end.

(** The ranked candidate list. *)
Definition ranked (batch_responses : list FlightSearchBatchResponse)
  : list FlightSearchResponse :=
  sort_by_price (collect batch_responses).

(** ** neurons/validator.py: state and query generation *)

(** A row of the airports file. *)
Record AirportRow : Type := {
  entityType : string;
  skyId : string;
  entityId : string
}.

(** [self.config]: the keys the validator reads. *)
Record Config : Type := { cfg_batch_size : option Z }.

Definition config_get_batch_size (config : Config) (default : Z) : Z :=
  match cfg_batch_size config with
  | Some n => n
  | None => default
  end.

Record Validator : Type := {
  API : bool;
  markets : list string;
  airports : list AirportRow;
  batch_size : Z
}.

(** [Validator.__init__].  [markets_csv] and [airports_csv] are the
    contents of the two files, [None] when reading one raised. *)
Definition Validator_init (config : Config) (markets_csv : option (list string))
  (airports_csv : option (list AirportRow)) : Validator :=
  let markets :=
    match markets_csv with
    | Some codes => codes
    | None => []
    end in
  let airports :=
    match airports_csv with
    | Some rows => filter (fun row => (entityType row =? "AIRPORT")%string) rows
    | None => []
    end in
  {| API := false;
     markets := markets;
     airports := airports;
     batch_size :=
       Z.min (Z.of_nat (List.length markets)) (config_get_batch_size config 10) |}.

(** [range(n)] runs [n] times, and not at all for a negative [n]. *)
Definition range_len (n : Z) : nat := Z.to_nat n.

Section ValidatorForward.

(** [template.utils.misc.generate_random_date]: a date string. *)
Variable generate_random_date : rng -> string * rng.

(** Step 2 of [forward]: [get_random_uids], the metagraph's axons and the
    dendrite call, which yield the batch responses of the miners that
    answered. *)
Variable query_miners :
  Validator -> FlightSearchBatchRequest -> rng -> list FlightSearchBatchResponse.

(** The keyword arguments of the constructor call in the loop of step 1,
    in the order they are evaluated. *)
Definition query_keywords (self : Validator) (synapse : Request.FlightSearchRequest)
  (random_date : string) (origin destination : AirportRow) (market : string)
  : result kwargs :=
  let route :=
    [("date", VStr random_date);
     ("origin", VStr (skyId origin));
     ("originId", VStr (entityId origin));
     ("destination", VStr (skyId destination));
     ("destinationId", VStr (entityId destination))] in
  if API self then
    cabin <- Request.FlightSearchRequest_getattr synapse "cabinClass" ;;
    ad <- Request.FlightSearchRequest_getattr synapse "adults" ;;
    ch <- Request.FlightSearchRequest_getattr synapse "children" ;;
    inf <- Request.FlightSearchRequest_getattr synapse "infants" ;;
    loc <- Request.FlightSearchRequest_getattr synapse "locale" ;;
    cur <- Request.FlightSearchRequest_getattr synapse "currency" ;;
    Ok (route ++
        [("cabinClass", cabin); ("adults", ad); ("children", ch);
         ("infants", inf); ("locale", loc); ("currency", cur);
         ("market", VStr market)])
  else
    Ok (route ++ [("market", VStr market)]).

(** The body of the loop of step 1. *)
Definition generate_query (self : Validator) (synapse : Request.FlightSearchRequest)
  : rand Request.FlightSearchRequest :=
  market <~ random_choice (markets self) ;;
  od <~ random_sample2 (airports self) ;;
  let (origin, destination) := od in
  fun g =>
    let (random_date, g') := generate_random_date g in
    liftS
      (kw <- query_keywords self synapse random_date origin destination market ;;
       Request.FlightSearchRequest_init kw) g'.

(** Step 1: [for _ in range(self.batch_size)]. *)
Fixpoint generate_queries (n : nat) (self : Validator)
  (synapse : Request.FlightSearchRequest) : rand (list Request.FlightSearchRequest) :=
  match n with
  | O => retS []
  | S n' =>
      q <~ generate_query self synapse ;;
      rest <~ generate_queries n' self synapse ;;
      retS (q :: rest)
  end.

Definition synthesize (self : Validator) (synapse : Request.FlightSearchRequest)
  : rand (list Request.FlightSearchRequest) :=
  generate_queries (range_len (batch_size self)) self synapse.

(** [Validator.forward] *)
Definition forward (self : Validator) (synapse : Request.FlightSearchRequest)
  (g : rng) : outcome :=
  match synthesize self synapse g with
  | Raise e => raised e
  | Ok (queries, g') =>
      let batch := {| queries := queries; dendrite := None |} in
      forward_responses synapse (query_miners self batch g')
  end.

End ValidatorForward.

(** ** neurons/miner.py *)

(** [self.metagraph]: the registry's hotkeys, validator permits and
    stakes ([metagraph.S]), indexed by uid. *)
Record Metagraph : Type := {
  hotkeys : list string;
  validator_permit : list bool;
  stakes : list Q
}.

(** [self.config.blacklist] *)
Record BlacklistConfig : Type := {
  allow_non_registered : bool;
  force_validator_permit : bool
}.

Record Miner : Type := {
  skyscanner_api_key : option string;
  metagraph : Metagraph;
  config_blacklist : BlacklistConfig
}.

(** [list.index(x)]: the first position of [x]; raises when [x] is not in
    the list. *)
Fixpoint list_index (x : string) (l : list string) : result nat :=
  match l with
  | [] => Raise ValueError
  | y :: t =>
      if (y =? x)%string then Ok O
      else (i <- list_index x t ;; Ok (S i))
  end.

(** [x in l] *)
Definition list_contains (x : string) (l : list string) : bool :=
  existsb (fun y => (y =? x)%string) l.

(** [l[i]] *)
Definition list_getitem {A : Type} (l : list A) (i : nat) : result A :=
  match nth_error l i with
  | Some x => Ok x
  | None => Raise IndexError
  end.

(** [Miner.blacklist] *)
Definition blacklist (self : Miner) (synapse : FlightSearchBatchRequest)
  : result (bool * string) :=
  match dendrite synapse with
  | None => Ok (true, "Missing dendrite or hotkey")
  | Some d =>
      match hotkey d with
      | None => Ok (true, "Missing dendrite or hotkey")
      | Some caller =>
          uid <- list_index caller (hotkeys (metagraph self)) ;;
          if negb (allow_non_registered (config_blacklist self))
             && negb (list_contains caller (hotkeys (metagraph self)))
          then Ok (true, "Unrecognized hotkey")
          else if force_validator_permit (config_blacklist self) then
            permit <- list_getitem (validator_permit (metagraph self)) uid ;;
            if negb permit then Ok (true, "Non-validator hotkey")
            else Ok (false, "Hotkey recognized!")
          else Ok (false, "Hotkey recognized!")
      end
  end.

(** [Miner.priority] *)
Definition priority (self : Miner) (synapse : FlightSearchBatchRequest) : result Q :=
  match dendrite synapse with
  | None => Ok 0%Q
  | Some d =>
      match hotkey d with
      | None => Ok 0%Q
      | Some caller =>
          caller_uid <- list_index caller (hotkeys (metagraph self)) ;;
          list_getitem (stakes (metagraph self)) caller_uid
      end
  end.

(** One flight object of the backend's JSON reply: what the miner reads
    from it.  An absent number is [None]; the strings are the results of
    the [str] conversions. *)
Record FlightItem : Type := {
  item_price : option Q;
  item_departure_time : string;
  item_arrival_time : string;
  item_stops : option Z;
  item_carrier : string
}.

(** The outcome of the HTTP call: a [requests.RequestException]
    (connection failure, timeout, error status, undecodable body), or the
    list under ["result"]["flights"], empty when absent. *)
Inductive backend_reply : Type :=
| RequestException
| Flights (flight_json_list : list FlightItem).

Definition opt_default {A : Type} (o : option A) (d : A) : A :=
  match o with
  | Some a => a
  | None => d
  end.

(** [if self.skyscanner_api_key:] *)
Definition has_api_key (self : Miner) : bool :=
  match skyscanner_api_key self with
  | Some k => negb (k =? "")%string
  | None => false
  end.

Fixpoint mapM {A B : Type} (f : A -> result B) (l : list A) : result (list B) :=
  match l with
  | [] => Ok []
  | x :: t => y <- f x ;; ys <- mapM f t ;; Ok (y :: ys)
  end.

Section MinerForward.

(** [requests.get] on the query parameters, followed by
    [raise_for_status] and [json]. *)
Variable requests_get : kwargs -> backend_reply.

(** [str(datetime.datetime.now() + datetime.timedelta(hours=h))] *)
Variable now_plus_hours : Z -> string.

(** [Miner._mock_flight] *)
Definition _mock_flight (req : Request.FlightSearchRequest)
  : rand FlightSearchResponse :=
  fun g =>
    match Request.FlightSearchRequest_getattr req "market" with
    | Raise e => Raise e
    | Ok mk =>
        let (p, g') := random_uniform 100 2000 g in
        r <- (cur <- Request.FlightSearchRequest_getattr req "currency" ;;
              dep <- Request.FlightSearchRequest_getattr req "origin" ;;
              arr <- Request.FlightSearchRequest_getattr req "destination" ;;
              FlightSearchResponse_init
                [("market", mk);
                 ("category", VStr "Cheapest");
                 ("price", VFloat p);
                 ("currency", py_or cur (VStr "USD"));
                 ("departure_time", VStr (now_plus_hours 5));
                 ("arrival_time", VStr (now_plus_hours 10));
                 ("departure_city", dep);
                 ("arrival_city", arr);
                 ("stops", VInt 1);
                 ("carrier", VStr "MockAir");
                 ("duration_days", VFloat (1 # 2))]) ;;
        Ok (r, g')
    end.

(** The constructor call in the loop over the backend's flights. *)
Definition convert_flight (req : Request.FlightSearchRequest) (flight_item : FlightItem)
  : result FlightSearchResponse :=
  mk <- Request.FlightSearchRequest_getattr req "market" ;;
  cur <- Request.FlightSearchRequest_getattr req "currency" ;;
  dep <- Request.FlightSearchRequest_getattr req "origin" ;;
  arr <- Request.FlightSearchRequest_getattr req "destination" ;;
  FlightSearchResponse_init
    [("market", mk);
     ("category", VStr "Cheapest");
     ("price", VFloat (opt_default (item_price flight_item) 0%Q));
     ("currency", py_or cur (VStr "USD"));
     ("departure_time", VStr (item_departure_time flight_item));
     ("arrival_time", VStr (item_arrival_time flight_item));
     ("departure_city", dep);
     ("arrival_city", arr);
     ("stops", VInt (opt_default (item_stops flight_item) 0));
     ("carrier", VStr (item_carrier flight_item));
     ("duration_days", VFloat 1%Q)].

(** The body of the loop of [Miner.forward]: the offers for one query. *)
Definition flights_for_query (self : Miner) (req : Request.FlightSearchRequest)
  : rand (list FlightSearchResponse) :=
  flights <~
    (if has_api_key self then
       query_params <~ liftS
         (o <- Request.FlightSearchRequest_getattr req "origin" ;;
          oid <- Request.FlightSearchRequest_getattr req "originId" ;;
          d <- Request.FlightSearchRequest_getattr req "destination" ;;
          did <- Request.FlightSearchRequest_getattr req "destinationId" ;;
          dt <- Request.FlightSearchRequest_getattr req "date" ;;
          mk <- Request.FlightSearchRequest_getattr req "market" ;;
          Ok [("origin", o); ("originId", oid); ("destination", d);
              ("destinationId", did); ("date", dt); ("market", mk)]) ;;
       match requests_get query_params with
       | RequestException =>
           m <~ _mock_flight req ;; retS [m]
       | Flights [] => retS []
       | Flights flight_json_list =>
           liftS
             (limit <- Request.FlightSearchRequest_getattr req "limit" ;;
              items <- py_slice_to flight_json_list (py_or limit (VInt 1)) ;;
              mapM (convert_flight req) items)
       end
     else
       m <~ _mock_flight req ;; retS [m]) ;;
  match flights with
  | [] => m <~ _mock_flight req ;; retS [m]
  | _ :: _ => retS flights
  end.

Fixpoint forward_loop (self : Miner) (qs : list Request.FlightSearchRequest)
  : rand (list (list FlightSearchResponse)) :=
  match qs with
  | [] => retS []
  | req :: rest =>
      flights <~ flights_for_query self req ;;
      others <~ forward_loop self rest ;;
      retS (flights :: others)
  end.

(** [Miner.forward] *)
Definition miner_forward (self : Miner) (synapse : FlightSearchBatchRequest)
  : rand FlightSearchBatchResponse :=
  all_responses <~ forward_loop self (queries synapse) ;;
  retS {| responses := all_responses |}.

End MinerForward.

(** ** Vocabulary of the statements, and sample data *)

(** [a] is priced at most as [b]: both prices are numbers, in this order. *)
Definition le_price (a b : FlightSearchResponse) : Prop :=
  match price a, price b with
  | Finite x, Finite y => (x <= y)%Q
  | _, _ => False
  end.

(** The offer is priced at the number [p]. *)
Definition same_price (p : Q) (o : FlightSearchResponse) : bool :=
  match price o with
  | Finite x => Qeq_bool x p
  | NaN => false
  end.

(** The price of the offer is a number. *)
Definition is_number (o : FlightSearchResponse) : bool :=
  match price o with
  | Finite _ => true
  | NaN => false
  end.

(** No offer is priced below the one before it, in the sense of [<]. *)
Definition no_descent (a b : FlightSearchResponse) : Prop :=
  flt_ltb (price b) (price a) = false.

(** An offer is well formed when the constructor of the protocol class
    returns it. *)
Definition well_formed (o : FlightSearchResponse) : Prop :=
  exists kw, FlightSearchResponse_init kw = Ok o.

Definition offer_kwargs (who : string) (p : Q) : kwargs :=
  [("market", VStr "US"); ("price", VFloat p); ("currency", VStr "USD");
   ("departure_time", VStr "2030-01-01T08:00:00");
   ("arrival_time", VStr "2030-01-01T20:00:00");
   ("departure_city", VStr "JFK"); ("arrival_city", VStr "HNL");
   ("stops", VInt 0); ("carrier", VStr who);
   ("duration_duration", VFloat (1 # 2))].

Definition offer (who : string) (p : Q) : FlightSearchResponse :=
  {| market := "US"; price := Finite p; currency := "USD";
     departure_time := "2030-01-01T08:00:00";
     arrival_time := "2030-01-01T20:00:00";
     departure_city := "JFK"; arrival_city := "HNL";
     stops := 0; carrier := who; duration_duration := 1 # 2 |}.

(** Three peers answer one query with prices 100, 100 and 150. *)
Definition three_peers : list FlightSearchBatchResponse :=
  [ {| responses := [[offer "A" 100]] |};
    {| responses := [[offer "B" 100]] |};
    {| responses := [[offer "C" 150]] |} ].

Definition nan_offer_kwargs (who : string) : kwargs :=
  [("market", VStr "US"); ("price", VNaN); ("currency", VStr "USD");
   ("departure_time", VStr "2030-01-01T08:00:00");
   ("arrival_time", VStr "2030-01-01T20:00:00");
   ("departure_city", VStr "JFK"); ("arrival_city", VStr "HNL");
   ("stops", VInt 0); ("carrier", VStr who);
   ("duration_duration", VFloat (1 # 2))].

Definition nan_offer (who : string) : FlightSearchResponse :=
  {| market := "US"; price := NaN; currency := "USD";
     departure_time := "2030-01-01T08:00:00";
     arrival_time := "2030-01-01T20:00:00";
     departure_city := "JFK"; arrival_city := "HNL";
     stops := 0; carrier := who; duration_duration := 1 # 2 |}.

(** One peer answers with prices 2, NaN and 1, in this order. *)
Definition nan_peer : list FlightSearchBatchResponse :=
  [ {| responses := [[offer "A" 2; nan_offer "B"; offer "C" 1]] |} ].

(** One peer answers with an offer at a negative price. *)
Definition negative_price_peer : list FlightSearchBatchResponse :=
  [ {| responses := [[offer "A" 100; offer "Z" (-5)]] |} ].

Definition sample_request : Request.FlightSearchRequest :=
  {| Request.date := "2030-01-01";
     Request.departure_airport_code := "JFK";
     Request.arrival_airport_code := "HNL";
     Request.cabinClass := Some "Economy";
     Request.adults := Some 1;
     Request.children := Some 0;
     Request.infants := Some 0;
     Request.market := "US";
     Request.currency := Some "USD" |}.

Definition sample_rng : rng := {| stream := fun i => Z.of_nat i; pos := 0 |}.

Definition sample_date (g : rng) : string * rng := ("2030-01-01", g).

Definition jfk : AirportRow :=
  {| entityType := "AIRPORT"; skyId := "JFK"; entityId := "95565058" |}.

Definition hnl : AirportRow :=
  {| entityType := "AIRPORT"; skyId := "HNL"; entityId := "95673827" |}.

(** A validator with five markets, two airports and a batch size of 5. *)
Definition busy_validator : Validator :=
  Validator_init {| cfg_batch_size := Some 5 |}
    (Some ["US"; "UK"; "DE"; "FR"; "IN"]) (Some [jfk; hnl]).

Definition strict_miner : Miner :=
  {| skyscanner_api_key := None;
     metagraph := {| hotkeys := ["alice"; "bob"];
                     validator_permit := [true; false];
                     stakes := [10%Q; 5%Q] |};
     config_blacklist := {| allow_non_registered := false;
                            force_validator_permit := true |} |}.

Definition batch_from (caller : string) : FlightSearchBatchRequest :=
  {| queries := [sample_request];
     dendrite := Some {| hotkey := Some caller |} |}.

(** The fields [FlightSearchRequest] declares, in order. *)
Definition request_fields : list string :=
  ["date"; "departure_airport_code"; "arrival_airport_code"; "cabinClass";
   "adults"; "children"; "infants"; "market"; "currency"].

(** The declared attributes of a request, read one by one, as keyword
    arguments. *)
Definition request_keywords (q : Request.FlightSearchRequest) : result kwargs :=
  mapM (fun name =>
          v <- Request.FlightSearchRequest_getattr q name ;; Ok (name, v))
    request_fields.

(** The fields of an offer as keyword arguments. *)
Definition response_keywords (o : FlightSearchResponse) : kwargs :=
  [("market", VStr (market o)); ("price", of_float (price o));
   ("currency", VStr (currency o));
   ("departure_time", VStr (departure_time o));
   ("arrival_time", VStr (arrival_time o));
   ("departure_city", VStr (departure_city o));
   ("arrival_city", VStr (arrival_city o));
   ("stops", VInt (stops o)); ("carrier", VStr (carrier o));
   ("duration_duration", VFloat (duration_duration o))].

Definition is_empty {A : Type} (l : list A) : bool :=
  match l with
  | [] => true
  | _ :: _ => false
  end.

(** A miner that differs from [self] in [allow_non_registered] only. *)
Definition with_allow_non_registered (allow : bool) (self : Miner) : Miner :=
  {| skyscanner_api_key := skyscanner_api_key self;
     metagraph := metagraph self;
     config_blacklist :=
       {| allow_non_registered := allow;
          force_validator_permit :=
            force_validator_permit (config_blacklist self) |} |}.

Definition sample_request_keywords : kwargs :=
  [("date", VStr "2030-01-01"); ("departure_airport_code", VStr "JFK");
   ("arrival_airport_code", VStr "HNL")].

(** The fields [FlightSearchResponse] declares, in order. *)
Definition response_fields : list string :=
  ["market"; "price"; "currency"; "departure_time"; "arrival_time";
   "departure_city"; "arrival_city"; "stops"; "carrier"; "duration_duration"].

(** * Properties *)

(** ** Comparisons *)

Lemma Qltb_true (x y : Q) : Qltb x y = true -> (x < y)%Q.
Proof.
  unfold Qltb. intros H. apply negb_true_iff in H.
  apply Qnot_le_lt. intros Hle.
  apply Qle_bool_iff in Hle. congruence.
Qed.

Lemma Qltb_false (x y : Q) : Qltb x y = false -> (y <= x)%Q.
Proof.
  unfold Qltb. intros H. apply negb_false_iff in H.
  now apply Qle_bool_iff.
Qed.

Lemma py_max_Qmax (a b : Q) : py_max a b = Qmax a b.
Proof.
  unfold py_max, Qmax, GenericMinMax.gmax.
  destruct (Qltb a b) eqn:E.
  - apply Qltb_true in E.
    destruct (Qlt_alt a b) as [H _]. now rewrite (H E).
  - apply Qltb_false in E.
    destruct (a ?= b)%Q eqn:C; try reflexivity.
    exfalso. destruct (Qlt_alt a b) as [_ H].
    exact (Qlt_not_le _ _ (H C) E).
Qed.

(** ** Collecting, in dispatch order *)

Lemma fold_extend (lists : list (list FlightSearchResponse))
  (acc : list FlightSearchResponse) :
  fold_left (fun a resp_list => a ++ resp_list) lists acc = acc ++ List.concat lists.
Proof.
  revert acc. induction lists as [|x t IH]; intros acc; simpl.
  - now rewrite app_nil_r.
  - rewrite IH. now rewrite app_assoc.
Qed.

Lemma collect_from (brs : list FlightSearchBatchResponse)
  (acc : list FlightSearchResponse) :
  fold_left
    (fun all_responses batch_resp =>
       fold_left (fun a resp_list => a ++ resp_list)
         (responses batch_resp) all_responses)
    brs acc
  = acc ++ flat_map (fun br => List.concat (responses br)) brs.
Proof.
  revert acc. induction brs as [|b t IH]; intros acc; simpl.
  - now rewrite app_nil_r.
  - rewrite IH, fold_extend. now rewrite app_assoc.
Qed.

Lemma collect_flat_map (brs : list FlightSearchBatchResponse) :
  collect brs = flat_map (fun br => List.concat (responses br)) brs.
Proof. unfold collect. now rewrite collect_from. Qed.

(** ** The sort *)

Lemma flt_ltb_true (a b : float) :
  flt_ltb a b = true -> exists x y, a = Finite x /\ b = Finite y /\ (x < y)%Q.
Proof.
  destruct a as [x|], b as [y|]; try discriminate.
  intros H. exists x, y. repeat split. now apply Qltb_true.
Qed.

Lemma forallb_is_number (l : list FlightSearchResponse) :
  forallb is_number l = true <-> Forall (fun o => is_number o = true) l.
Proof.
  rewrite forallb_forall, Forall_forall. reflexivity.
Qed.

Lemma le_price_refl (x : FlightSearchResponse) :
  is_number x = true -> le_price x x.
Proof.
  unfold is_number, le_price. destruct (price x); [|discriminate].
  intros _. apply Qle_refl.
Qed.

Lemma le_price_trans (x y z : FlightSearchResponse) :
  le_price x y -> le_price y z -> le_price x z.
Proof.
  unfold le_price.
  destruct (price x), (price y), (price z); try tauto.
  apply Qle_trans.
Qed.

Lemma le_price_of_lt (x y : FlightSearchResponse) :
  flt_ltb (price y) (price x) = true -> le_price y x.
Proof.
  intros H. apply flt_ltb_true in H as (a & b & Ha & Hb & Hlt).
  unfold le_price. rewrite Ha, Hb. now apply Qlt_le_weak.
Qed.

Lemma le_price_of_not_lt (x y : FlightSearchResponse) :
  is_number x = true -> is_number y = true ->
  flt_ltb (price y) (price x) = false -> le_price x y.
Proof.
  unfold is_number, le_price, flt_ltb.
  destruct (price x), (price y); try discriminate.
  intros _ _. apply Qltb_false.
Qed.

Lemma insert_perm (x : FlightSearchResponse) (l : list FlightSearchResponse) :
  Permutation (x :: l) (insert_by_price x l).
Proof.
  induction l as [|y t IH]; simpl.
  - apply Permutation_refl.
  - destruct (flt_ltb (price y) (price x)).
    + eapply perm_trans; [apply perm_swap|]. now apply perm_skip.
    + apply Permutation_refl.
Qed.

Lemma sort_perm (l : list FlightSearchResponse) :
  Permutation l (sort_by_price l).
Proof.
  induction l as [|x t IH]; simpl.
  - constructor.
  - eapply perm_trans; [apply perm_skip, IH|apply insert_perm].
Qed.

Lemma insert_sorted (x : FlightSearchResponse) (l : list FlightSearchResponse) :
  is_number x = true ->
  Forall (fun o => is_number o = true) l ->
  StronglySorted le_price l -> StronglySorted le_price (insert_by_price x l).
Proof.
  intros Hx. induction l as [|y t IH]; intros Hn Hs; simpl.
  - repeat constructor.
  - inversion Hs as [|? ? Ht Hy]; subst.
    inversion Hn as [|? ? Hny Hnt]; subst.
    destruct (flt_ltb (price y) (price x)) eqn:E.
    + constructor; [now apply IH|].
      eapply Permutation_Forall; [apply insert_perm|].
      constructor; [now apply le_price_of_lt|assumption].
    + pose proof (le_price_of_not_lt x y Hx Hny E) as Hxy.
      constructor; [assumption|].
      constructor; [exact Hxy|].
      eapply Forall_impl; [|exact Hy].
      intros z Hz. eapply le_price_trans; eassumption.
Qed.

Lemma sort_sorted (l : list FlightSearchResponse) :
  Forall (fun o => is_number o = true) l ->
  StronglySorted le_price (sort_by_price l).
Proof.
  induction l as [|x t IH]; intros Hn; simpl.
  - constructor.
  - inversion Hn; subst. apply insert_sorted; auto.
    eapply Permutation_Forall; [apply sort_perm|assumption].
Qed.

Lemma insert_filter_same_price (p : Q) (x : FlightSearchResponse)
  (l : list FlightSearchResponse) :
  filter (same_price p) (insert_by_price x l) = filter (same_price p) (x :: l).
Proof.
  induction l as [|y t IH]; [reflexivity|].
  simpl insert_by_price.
  destruct (flt_ltb (price y) (price x)) eqn:E; [|reflexivity].
  simpl in *. rewrite IH.
  destruct (same_price p x) eqn:Hx; [|reflexivity].
  destruct (same_price p y) eqn:Hy; [|reflexivity].
  exfalso. unfold same_price in *.
  apply flt_ltb_true in E as (b & a & Hb & Ha & Hlt).
  rewrite Ha in Hx. rewrite Hb in Hy.
  apply Qeq_bool_iff in Hx. apply Qeq_bool_iff in Hy.
  rewrite Hx, Hy in Hlt. exact (Qlt_irrefl _ Hlt).
Qed.

Lemma sort_stable (p : Q) (l : list FlightSearchResponse) :
  filter (same_price p) (sort_by_price l) = filter (same_price p) l.
Proof.
  induction l as [|x t IH]; [reflexivity|].
  simpl sort_by_price. rewrite insert_filter_same_price.
  simpl. now rewrite IH.
Qed.

Lemma sort_nonempty (l : list FlightSearchResponse) :
  l <> [] -> exists first rest, sort_by_price l = first :: rest.
Proof.
  intros Hl. destruct (sort_by_price l) as [|f r] eqn:E.
  - exfalso. apply Hl. apply Permutation_nil.
    apply Permutation_sym. rewrite <- E. apply sort_perm.
  - eauto.
Qed.

(** A list that is one ascending run for [<], NaN prices included, is
    returned unchanged. *)
Lemma sort_run_unchanged (l : list FlightSearchResponse) :
  Sorted no_descent l -> sort_by_price l = l.
Proof.
  induction 1 as [|x t Ht IH Hd]; [reflexivity|].
  simpl. rewrite IH.
  destruct Hd as [|y t' Hxy]; [reflexivity|].
  simpl. unfold no_descent in Hxy. now rewrite Hxy.
Qed.

(** ** Ranking *)

(** C5, as the code has it.  When no collected price is NaN, the ranked
    output is sorted ascending by price and is a rearrangement of the
    collected offers, and offers of equal price keep the order in which
    they were collected, which is the dispatch order: batch responses in
    the order received, within each the query positions in order, within
    each position the offers in order. *)
Theorem ranked_sorted_and_stable (batch_responses : list FlightSearchBatchResponse) :
  forallb is_number (collect batch_responses) = true ->
  StronglySorted le_price (ranked batch_responses)
  /\ Permutation (collect batch_responses) (ranked batch_responses)
  /\ forall p : Q,
       filter (same_price p) (ranked batch_responses)
       = filter (same_price p)
           (flat_map (fun batch_resp => List.concat (responses batch_resp))
              batch_responses).
Proof.
  intros Hn. apply forallb_is_number in Hn.
  unfold ranked. split; [now apply sort_sorted|].
  split; [apply sort_perm|].
  intros p. rewrite sort_stable. now rewrite collect_flat_map.
Qed.

Lemma ranked_sorted_and_stable_witness :
  StronglySorted le_price (ranked three_peers)
  /\ Permutation (collect three_peers) (ranked three_peers)
  /\ forall p : Q,
       filter (same_price p) (ranked three_peers)
       = filter (same_price p)
           (flat_map (fun batch_resp => List.concat (responses batch_resp))
              three_peers).
Proof.
  apply (ranked_sorted_and_stable three_peers). reflexivity.
Defined.

Example ranked_three_peers :
  map carrier (ranked three_peers) = ["A"; "B"; "C"].
Proof. reflexivity. Qed.

(** C5, as stated, fails: the class accepts an offer priced NaN, and the
    offers priced 2, NaN and 1, collected in this order, are ranked in
    this order, the offer priced 1 after the offer priced 2. *)
Lemma ranked_unsorted_with_nan :
  FlightSearchResponse_init (nan_offer_kwargs "B") = Ok (nan_offer "B")
  /\ ranked nan_peer = [offer "A" 2; nan_offer "B"; offer "C" 1]
  /\ flt_ltb (price (offer "C" 1)) (price (offer "A" 2)) = true.
Proof. repeat split. Qed.

(** ** Reward *)

(** The read of [resp.uid] ends the loop at its first response, before
    [backpropagate] is called. *)
Lemma reward_loop_raises (best_price : float) (resp : FlightSearchResponse)
  (rest : list FlightSearchResponse) :
  reward_loop best_price (resp :: rest) = ([], Some (AttributeError "uid")).
Proof. reflexivity. Qed.

Lemma forward_responses_nonempty (synapse : Request.FlightSearchRequest)
  (batch_responses : list FlightSearchBatchResponse) :
  collect batch_responses <> [] ->
  forward_responses synapse batch_responses = raised (AttributeError "uid").
Proof.
  intros Hne.
  destruct (sort_nonempty _ Hne) as (first & rest & Hs).
  unfold forward_responses.
  destruct (collect batch_responses) as [|c cs] eqn:Hc; [congruence|].
  rewrite Hs, reward_loop_raises. reflexivity.
Qed.

(** The profit of line 131 on numbers is [max(0, best_price - price)]. *)
Lemma profit_on_numbers (best p : Q) :
  py_max_float (Finite 0) (flt_sub (Finite best) (Finite p))
  = Finite (Qmax 0 (best - p)).
Proof.
  unfold py_max_float, flt_sub, flt_ltb. rewrite <- py_max_Qmax.
  unfold py_max. now destruct (Qltb 0 (best - p)).
Qed.

(** With the prices 2, NaN and 1 the best price is 2 and the profit
    computed for the offer priced 1 is 1. *)
Example profit_with_nan :
  map (fun resp =>
         py_max_float (Finite 0)
           (flt_sub (price (offer "A" 2)) (price resp)))
    (ranked nan_peer)
  = [Finite 0; Finite 0; Finite (2 - 1)].
Proof. reflexivity. Qed.

(** C1, on the code.  When some offer was collected, the loop of step 4
    raises at its first response, where the message of the logging call
    reads [resp.uid], which [FlightSearchResponse] does not declare:
    [backpropagate] is never called, so no reward is applied, and the
    state is not saved. *)
Theorem forward_applies_no_reward
  (synapse : Request.FlightSearchRequest)
  (batch_responses : list FlightSearchBatchResponse) :
  collect batch_responses <> [] ->
  backpropagated (forward_responses synapse batch_responses) = []
  /\ saved (forward_responses synapse batch_responses) = false
  /\ returned (forward_responses synapse batch_responses)
     = Raise (AttributeError "uid").
Proof.
  intros Hne. rewrite (forward_responses_nonempty synapse _ Hne).
  repeat split.
Qed.

Lemma forward_applies_no_reward_witness :
  backpropagated (forward_responses sample_request three_peers) = []
  /\ saved (forward_responses sample_request three_peers) = false
  /\ returned (forward_responses sample_request three_peers)
     = Raise (AttributeError "uid").
Proof.
  apply (forward_applies_no_reward sample_request three_peers).
  vm_compute. discriminate.
Defined.

(** ** No validity filter *)

Lemma init_bounds (kw : kwargs) (o : FlightSearchResponse) :
  FlightSearchResponse_init kw = Ok o ->
  (0 < duration_duration o)%Q /\ 0 <= stops o.
Proof.
  unfold FlightSearchResponse_init, bind.
  destruct (required_str "market" kw); [|discriminate].
  destruct (required_float_or_nan "price" kw); [|discriminate].
  destruct (required_str "currency" kw); [|discriminate].
  destruct (required_str "departure_time" kw); [|discriminate].
  destruct (required_str "arrival_time" kw); [|discriminate].
  destruct (required_str "departure_city" kw); [|discriminate].
  destruct (required_str "arrival_city" kw); [|discriminate].
  destruct (required_int_ge "stops" 0 kw) as [st|] eqn:Hst; [|discriminate].
  destruct (required_str "carrier" kw); [|discriminate].
  destruct (required_float_gt "duration_duration" 0%Q kw) as [du|] eqn:Hdu;
    [|discriminate].
  intros H. injection H as <-. cbn [duration_duration stops].
  split.
  - unfold required_float_gt, bind in Hdu.
    destruct (required_float "duration_duration" kw) as [x|]; [|discriminate].
    destruct (Qltb 0 x) eqn:E; [|discriminate].
    injection Hdu as <-. now apply Qltb_true.
  - unfold required_int_ge in Hst.
    destruct (kw_get "stops" kw) as [[| |n| |]|]; try discriminate.
    destruct (0 <=? n) eqn:E; [|discriminate].
    injection Hst as <-. now apply Z.leb_le.
Qed.

(** C2, as the code has it.  Nothing is discarded before ranking: the
    ranked output is a rearrangement of all collected offers.  When the
    collected offers are well formed, every ranked offer has a positive
    duration and a non-negative stop count, which the protocol class
    enforces on construction; the price is not constrained. *)
Theorem ranked_keeps_every_offer (batch_responses : list FlightSearchBatchResponse) :
  Forall well_formed (collect batch_responses) ->
  Permutation (collect batch_responses) (ranked batch_responses)
  /\ List.length (ranked batch_responses) = List.length (collect batch_responses)
  /\ Forall (fun o => (0 < duration_duration o)%Q /\ 0 <= stops o)
       (ranked batch_responses).
Proof.
  intros Hwf. unfold ranked.
  pose proof (sort_perm (collect batch_responses)) as Hp.
  split; [exact Hp|]. split.
  - symmetry. now apply Permutation_length.
  - eapply Permutation_Forall; [exact Hp|].
    eapply Forall_impl; [|exact Hwf].
    intros o [kw Hkw]. eapply init_bounds; eassumption.
Qed.

Lemma negative_price_peer_well_formed :
  Forall well_formed (collect negative_price_peer).
Proof.
  repeat constructor.
  - exists (offer_kwargs "A" 100). reflexivity.
  - exists (offer_kwargs "Z" (-5)). reflexivity.
Qed.

Lemma ranked_keeps_every_offer_witness :
  Forall well_formed (collect negative_price_peer)
  /\ Permutation (collect negative_price_peer) (ranked negative_price_peer)
  /\ List.length (ranked negative_price_peer)
     = List.length (collect negative_price_peer)
  /\ Forall (fun o => (0 < duration_duration o)%Q /\ 0 <= stops o)
       (ranked negative_price_peer).
Proof.
  split; [exact negative_price_peer_well_formed|].
  apply (ranked_keeps_every_offer negative_price_peer).
  exact negative_price_peer_well_formed.
Defined.

(** C2, as stated, fails: an offer that the protocol class accepts with
    price -5 is collected, and it is the first of the ranked output. *)
Lemma ranked_has_nonpositive_price :
  FlightSearchResponse_init (offer_kwargs "Z" (-5)) = Ok (offer "Z" (-5))
  /\ ranked negative_price_peer = [offer "Z" (-5); offer "A" 100]
  /\ In (offer "Z" (-5)) (ranked negative_price_peer)
  /\ price (offer "Z" (-5)) = Finite (-5)
  /\ (-5 <= 0)%Q.
Proof.
  split; [reflexivity|]. split; [reflexivity|].
  split; [left; reflexivity|]. split; [reflexivity|].
  vm_compute. discriminate.
Qed.

(** ** No responses *)

Lemma forward_responses_nil (synapse : Request.FlightSearchRequest) :
  forward_responses synapse []
  = {| returned := Ok []; backpropagated := []; saved := false |}.
Proof. reflexivity. Qed.

(** The path of lines 123 to 125: when query generation has returned and
    no batch response comes back, [forward] returns the empty list. *)
Lemma forward_without_responses
  (generate_random_date : rng -> string * rng)
  (query_miners :
     Validator -> FlightSearchBatchRequest -> rng -> list FlightSearchBatchResponse)
  (self : Validator) (synapse : Request.FlightSearchRequest) (g g' : rng)
  (qs : list Request.FlightSearchRequest) :
  synthesize generate_random_date self synapse g = Ok (qs, g') ->
  query_miners self {| queries := qs; dendrite := None |} g' = [] ->
  forward generate_random_date query_miners self synapse g
  = {| returned := Ok []; backpropagated := []; saved := false |}.
Proof.
  intros Hs Hq. unfold forward. rewrite Hs, Hq. apply forward_responses_nil.
Qed.

(** ** The result limit *)

Lemma getattr_limit (self : Request.FlightSearchRequest) :
  Request.FlightSearchRequest_getattr self "limit" = Raise (AttributeError "limit").
Proof. reflexivity. Qed.

Lemma py_slice_to_firstn {A : Type} (l : list A) (m : Z) :
  0 <= m -> py_slice_to l (VInt m) = Ok (firstn (Z.to_nat m) l).
Proof.
  intros H. unfold py_slice_to.
  destruct (0 <=? m) eqn:E; [reflexivity|].
  apply Z.leb_gt in E. lia.
Qed.

(** C9, on the code.  When some offer was collected, [forward] returns no
    list: it raises in the loop of step 4, before line 139 is reached.
    Line 139 would raise as well: it reads [synapse.limit], and
    [FlightSearchRequest] declares no field [limit], so that no request
    carries a result limit. *)
Theorem forward_raises_before_limit
  (synapse : Request.FlightSearchRequest)
  (batch_responses : list FlightSearchBatchResponse) :
  collect batch_responses <> [] ->
  returned (forward_responses synapse batch_responses)
  = Raise (AttributeError "uid")
  /\ Request.FlightSearchRequest_getattr synapse "limit"
     = Raise (AttributeError "limit").
Proof.
  intros Hne. rewrite (forward_responses_nonempty synapse _ Hne).
  split; reflexivity.
Qed.

Lemma forward_raises_before_limit_witness :
  returned (forward_responses sample_request three_peers)
  = Raise (AttributeError "uid")
  /\ Request.FlightSearchRequest_getattr sample_request "limit"
     = Raise (AttributeError "limit").
Proof.
  apply (forward_raises_before_limit sample_request three_peers).
  vm_compute. discriminate.
Defined.

(** ** Query generation *)

Lemma randbelow_lt (n : nat) (g : rng) :
  (0 < n)%nat -> (fst (randbelow n g) < n)%nat.
Proof.
  intros Hn. unfold randbelow, next. cbn [fst].
  pose proof (Z.mod_pos_bound (stream g (pos g)) (Z.of_nat n)) as Hb.
  lia.
Qed.

Lemma random_choice_ok {A : Type} (seq : list A) (g : rng) :
  seq <> [] -> exists x g', random_choice seq g = Ok (x, g') /\ In x seq.
Proof.
  intros Hne. unfold random_choice.
  destruct seq as [|a t]; [congruence|].
  pose proof (randbelow_lt (List.length (a :: t)) g) as Hlt.
  destruct (randbelow (List.length (a :: t)) g) as [i g'].
  cbn [fst] in Hlt.
  destruct (nth_error (a :: t) i) as [x|] eqn:E.
  - exists x, g'. split; [reflexivity|]. eapply nth_error_In; eassumption.
  - apply nth_error_None in E. simpl in *. lia.
Qed.

Lemma nth_error_list_set {A : Type} (l : list A) (i j : nat) (x : A) :
  (i < List.length l)%nat ->
  nth_error (list_set l i x) j = if (j =? i)%nat then Some x else nth_error l j.
Proof.
  revert i j. induction l as [|h t IH]; intros i j Hi; simpl in Hi; [lia|].
  destruct i as [|i]; destruct j as [|j]; simpl; try reflexivity.
  apply IH. lia.
Qed.

(** [random.sample(population, 2)] returns the elements at two different
    positions of the population. *)
Lemma random_sample2_ok {A : Type} (population : list A) (g : rng) :
  (2 <= List.length population)%nat ->
  exists a b i j g',
    random_sample2 population g = Ok ((a, b), g')
    /\ nth_error population i = Some a
    /\ nth_error population j = Some b
    /\ i <> j.
Proof.
  intros Hlen. unfold random_sample2.
  destruct (List.length population <? 2)%nat eqn:E;
    [apply Nat.ltb_lt in E; lia|].
  pose proof (randbelow_lt (List.length population) g) as H1.
  destruct (randbelow (List.length population) g) as [j1 g1]. cbn [fst] in H1.
  specialize (H1 ltac:(lia)).
  destruct (nth_error population j1) as [r1|] eqn:E1;
    [|apply nth_error_None in E1; lia].
  destruct (nth_error population (List.length population - 1)) as [last1|] eqn:E2;
    [|apply nth_error_None in E2; lia].
  pose proof (randbelow_lt (List.length population - 1) g1) as H2.
  destruct (randbelow (List.length population - 1) g1) as [j2 g2]. cbn [fst] in H2.
  specialize (H2 ltac:(lia)).
  rewrite nth_error_list_set by exact H1.
  destruct (j2 =? j1)%nat eqn:Ej.
  - apply Nat.eqb_eq in Ej. subst j2.
    exists r1, last1, j1, (List.length population - 1)%nat, g2.
    repeat split; try assumption. lia.
  - apply Nat.eqb_neq in Ej.
    destruct (nth_error population j2) as [r2|] eqn:E3;
      [|apply nth_error_None in E3; lia].
    exists r1, r2, j1, j2, g2. repeat split; try assumption. congruence.
Qed.

Lemma random_sample2_short {A : Type} (population : list A) (g : rng) :
  (List.length population < 2)%nat ->
  random_sample2 population g = Raise ValueError.
Proof.
  intros H. unfold random_sample2.
  apply Nat.ltb_lt in H. now rewrite H.
Qed.

Section QueryGeneration.

Variable generate_random_date : rng -> string * rng.

(** With the API flag off the request passed to [forward] is not read. *)
Lemma generate_query_ignores_synapse (self : Validator)
  (s1 s2 : Request.FlightSearchRequest) (g : rng) :
  API self = false ->
  generate_query generate_random_date self s1 g
  = generate_query generate_random_date self s2 g.
Proof.
  intros HA. unfold generate_query, bindS.
  destruct (random_choice (markets self) g) as [[mk g1]|]; [|reflexivity].
  destruct (random_sample2 (airports self) g1) as [[[o d] g2]|]; [|reflexivity].
  destruct (generate_random_date g2) as [dt g3].
  unfold query_keywords. now rewrite HA.
Qed.

Lemma generate_queries_ignore_synapse (n : nat) (self : Validator)
  (s1 s2 : Request.FlightSearchRequest) (g : rng) :
  API self = false ->
  generate_queries generate_random_date n self s1 g
  = generate_queries generate_random_date n self s2 g.
Proof.
  intros HA. revert g. induction n as [|n IH]; intros g; [reflexivity|].
  simpl. unfold bindS.
  rewrite (generate_query_ignores_synapse self s1 s2 g HA).
  destruct (generate_query generate_random_date self s2 g) as [[q g1]|];
    [|reflexivity].
  now rewrite IH.
Qed.

(** The constructor call of the loop raises: the keywords [origin],
    [originId], [destination] and [destinationId] name no field of
    [FlightSearchRequest], and its required fields
    [departure_airport_code] and [arrival_airport_code] are not given. *)
Lemma generate_query_raises (self : Validator)
  (synapse : Request.FlightSearchRequest) (g : rng) :
  API self = false ->
  markets self <> [] ->
  (2 <= List.length (airports self))%nat ->
  generate_query generate_random_date self synapse g
  = Raise (ValidationError "departure_airport_code").
Proof.
  intros HA Hm Ha. unfold generate_query, bindS.
  destruct (random_choice_ok (markets self) g Hm) as (mk & g1 & -> & _).
  destruct (random_sample2_ok (airports self) g1 Ha)
    as (o & d & i & j & g2 & -> & _).
  destruct (generate_random_date g2) as [dt g3].
  unfold query_keywords. rewrite HA. reflexivity.
Qed.

Lemma generate_query_short_of_airports (self : Validator)
  (synapse : Request.FlightSearchRequest) (g : rng) :
  markets self <> [] ->
  (List.length (airports self) < 2)%nat ->
  generate_query generate_random_date self synapse g = Raise ValueError.
Proof.
  intros Hm Ha. unfold generate_query, bindS.
  destruct (random_choice_ok (markets self) g Hm) as (mk & g1 & -> & _).
  now rewrite random_sample2_short.
Qed.

Lemma synthesize_first_raise (self : Validator)
  (synapse : Request.FlightSearchRequest) (g : rng) (e : exn) :
  0 < batch_size self ->
  generate_query generate_random_date self synapse g = Raise e ->
  synthesize generate_random_date self synapse g = Raise e.
Proof.
  intros Hb Hq. unfold synthesize, range_len.
  destruct (Z.to_nat (batch_size self)) as [|n] eqn:E; [lia|].
  simpl. unfold bindS. now rewrite Hq.
Qed.

End QueryGeneration.

(** C10.  For a validator built by [__init__], which sets the API flag
    off, query generation under the same random draws gives the same
    outcome for any two incoming requests.  The keyword arguments of each
    generated query do not depend on the incoming request and name none of
    cabin class, passenger counts, locale and currency, so that those
    fields of a generated query can only hold the protocol's defaults. *)
Theorem synthesize_ignores_synapse
  (generate_random_date : rng -> string * rng)
  (config : Config) (markets_csv : option (list string))
  (airports_csv : option (list AirportRow))
  (s1 s2 : Request.FlightSearchRequest) (g : rng) :
  synthesize generate_random_date
    (Validator_init config markets_csv airports_csv) s1 g
  = synthesize generate_random_date
      (Validator_init config markets_csv airports_csv) s2 g
  /\ forall (random_date market : string) (origin destination : AirportRow),
       exists kw,
         query_keywords (Validator_init config markets_csv airports_csv) s1
           random_date origin destination market = Ok kw
         /\ query_keywords (Validator_init config markets_csv airports_csv) s2
              random_date origin destination market = Ok kw
         /\ kw_get "cabinClass" kw = None
         /\ kw_get "adults" kw = None
         /\ kw_get "children" kw = None
         /\ kw_get "infants" kw = None
         /\ kw_get "locale" kw = None
         /\ kw_get "currency" kw = None.
Proof.
  split.
  - unfold synthesize. now apply generate_queries_ignore_synapse.
  - intros random_date market origin destination.
    eexists. repeat split.
Qed.

(** A request built with the keywords of the loop's constructor call and
    the two missing required fields takes the protocol's defaults. *)
Lemma request_defaults (kw : kwargs) (q : Request.FlightSearchRequest) :
  Request.FlightSearchRequest_init kw = Ok q ->
  kw_get "cabinClass" kw = None ->
  kw_get "adults" kw = None ->
  kw_get "children" kw = None ->
  kw_get "infants" kw = None ->
  kw_get "currency" kw = None ->
  Request.cabinClass q = Some "Economy"
  /\ Request.adults q = Some 1
  /\ Request.children q = Some 0
  /\ Request.infants q = Some 0
  /\ Request.currency q = Some "USD".
Proof.
  intros H Hc Ha Hch Hi Hcu.
  unfold Request.FlightSearchRequest_init, bind in H.
  destruct (required_str "date" kw); [|discriminate].
  destruct (required_str "departure_airport_code" kw); [|discriminate].
  destruct (required_str "arrival_airport_code" kw); [|discriminate].
  unfold optional_literal, optional_int_ge, optional_str in H.
  rewrite Hc, Ha, Hch, Hi in H.
  destruct (default_str "market" "US" kw); [|discriminate].
  rewrite Hcu in H. injection H as <-. cbn. repeat split.
Qed.

(** C8, on the code.  With markets, at least two airports and a positive
    batch size, query generation raises at the first constructor call: no
    batch is produced. *)
Theorem synthesize_raises_validation_error
  (generate_random_date : rng -> string * rng)
  (self : Validator) (synapse : Request.FlightSearchRequest) (g : rng) :
  API self = false ->
  markets self <> [] ->
  (2 <= List.length (airports self))%nat ->
  0 < batch_size self ->
  synthesize generate_random_date self synapse g
  = Raise (ValidationError "departure_airport_code").
Proof.
  intros HA Hm Ha Hb.
  apply synthesize_first_raise; [exact Hb|].
  now apply generate_query_raises.
Qed.

Lemma synthesize_raises_validation_error_witness :
  synthesize sample_date
    (Validator_init {| cfg_batch_size := Some 1 |} (Some ["US"]) (Some [jfk; hnl]))
    sample_request sample_rng
  = Raise (ValidationError "departure_airport_code").
Proof.
  apply (synthesize_raises_validation_error sample_date
           (Validator_init {| cfg_batch_size := Some 1 |} (Some ["US"])
              (Some [jfk; hnl]))
           sample_request sample_rng).
  - reflexivity.
  - discriminate.
  - vm_compute. lia.
  - reflexivity.
Defined.

(** C7, on the code.  Whenever a peer is sampled, that is whenever the
    batch size is positive, and markets and two airports are loaded,
    [forward] raises in query generation, before the batch is dispatched:
    whatever the peers do, also when none of them responds, the cycle
    ends in the validation error and returns no list. *)
Theorem forward_raises_before_dispatch
  (generate_random_date : rng -> string * rng)
  (query_miners :
     Validator -> FlightSearchBatchRequest -> rng -> list FlightSearchBatchResponse)
  (self : Validator) (synapse : Request.FlightSearchRequest) (g : rng) :
  API self = false ->
  markets self <> [] ->
  (2 <= List.length (airports self))%nat ->
  0 < batch_size self ->
  forward generate_random_date query_miners self synapse g
  = raised (ValidationError "departure_airport_code").
Proof.
  intros HA Hm Ha Hb. unfold forward.
  rewrite (synthesize_first_raise generate_random_date self synapse g
             (ValidationError "departure_airport_code") Hb
             (generate_query_raises generate_random_date self synapse g HA Hm Ha)).
  reflexivity.
Qed.

Lemma forward_raises_before_dispatch_witness :
  forward sample_date (fun _ _ _ => []) busy_validator sample_request sample_rng
  = raised (ValidationError "departure_airport_code").
Proof.
  apply (forward_raises_before_dispatch sample_date (fun _ _ _ => [])
           busy_validator sample_request sample_rng).
  - reflexivity.
  - discriminate.
  - vm_compute. lia.
  - reflexivity.
Defined.

(** C6, on the code.  With markets and a positive batch size but fewer
    than two airports, [random.sample] raises and so does query
    generation: no empty batch is returned. *)
Theorem synthesize_raises_without_airports
  (generate_random_date : rng -> string * rng)
  (self : Validator) (synapse : Request.FlightSearchRequest) (g : rng) :
  markets self <> [] ->
  (List.length (airports self) < 2)%nat ->
  0 < batch_size self ->
  synthesize generate_random_date self synapse g = Raise ValueError.
Proof.
  intros Hm Ha Hb.
  apply synthesize_first_raise; [exact Hb|].
  now apply generate_query_short_of_airports.
Qed.

Lemma synthesize_raises_without_airports_witness :
  synthesize sample_date
    (Validator_init {| cfg_batch_size := None |} (Some ["US"]) None)
    sample_request sample_rng
  = Raise ValueError.
Proof.
  apply (synthesize_raises_without_airports sample_date
           (Validator_init {| cfg_batch_size := None |} (Some ["US"]) None)
           sample_request sample_rng).
  - discriminate.
  - vm_compute. lia.
  - reflexivity.
Defined.

(** The case of C6 that the code handles: without markets the batch size
    is not positive, and the batch is empty. *)
Lemma synthesize_without_markets
  (generate_random_date : rng -> string * rng)
  (self : Validator) (synapse : Request.FlightSearchRequest) (g : rng) :
  batch_size self <= 0 ->
  synthesize generate_random_date self synapse g = Ok ([], g).
Proof.
  intros Hb. unfold synthesize, range_len.
  replace (Z.to_nat (batch_size self)) with O by lia. reflexivity.
Qed.

Lemma init_without_markets (config : Config)
  (airports_csv : option (list AirportRow)) :
  batch_size (Validator_init config None airports_csv) <= 0.
Proof. cbn. lia. Qed.

(** ** Admission *)

Lemma list_index_missing (x : string) (l : list string) :
  list_contains x l = false -> list_index x l = Raise ValueError.
Proof.
  induction l as [|y t IH]; [reflexivity|].
  unfold list_contains in *. simpl. intros H.
  apply orb_false_iff in H as [Hy Ht].
  rewrite Hy. now rewrite (IH Ht).
Qed.

Lemma list_index_found (x : string) (l : list string) (i : nat) :
  list_index x l = Ok i -> list_contains x l = true.
Proof.
  revert i. induction l as [|y t IH]; intros i; [discriminate|].
  unfold list_contains in *. simpl.
  destruct (y =? x)%string; [reflexivity|].
  destruct (list_index x t) as [j|]; [|discriminate].
  intros _. simpl. now apply (IH j).
Qed.

(** C3, on the code.  For a caller whose hotkey is not in the registry,
    [hotkeys.index] raises before the test of [allow_non_registered] is
    reached, whatever the configuration: no decision is returned. *)
Theorem blacklist_raises_on_unknown_hotkey
  (self : Miner) (synapse : FlightSearchBatchRequest) (caller : string) :
  dendrite synapse = Some {| hotkey := Some caller |} ->
  list_contains caller (hotkeys (metagraph self)) = false ->
  blacklist self synapse = Raise ValueError.
Proof.
  intros Hd Hc. unfold blacklist. rewrite Hd. cbn [hotkey].
  now rewrite (list_index_missing _ _ Hc).
Qed.

Lemma blacklist_raises_on_unknown_hotkey_witness :
  blacklist strict_miner (batch_from "mallory") = Raise ValueError.
Proof.
  apply (blacklist_raises_on_unknown_hotkey strict_miner (batch_from "mallory")
           "mallory"); reflexivity.
Defined.

(** The second half of C3: a registered caller without a validator permit
    is rejected with a reason of its own when permits are enforced. *)
Lemma blacklist_non_validator
  (self : Miner) (synapse : FlightSearchBatchRequest) (caller : string)
  (uid : nat) :
  dendrite synapse = Some {| hotkey := Some caller |} ->
  list_index caller (hotkeys (metagraph self)) = Ok uid ->
  force_validator_permit (config_blacklist self) = true ->
  nth_error (validator_permit (metagraph self)) uid = Some false ->
  blacklist self synapse = Ok (true, "Non-validator hotkey").
Proof.
  intros Hd Hi Hf Hp. unfold blacklist. rewrite Hd. cbn [hotkey].
  rewrite Hi. cbn [bind].
  rewrite (list_index_found _ _ _ Hi), andb_false_r, Hf.
  unfold list_getitem. now rewrite Hp.
Qed.

Example blacklist_bob :
  blacklist strict_miner (batch_from "bob") = Ok (true, "Non-validator hotkey").
Proof. reflexivity. Qed.

Example blacklist_alice :
  blacklist strict_miner (batch_from "alice") = Ok (false, "Hotkey recognized!").
Proof. reflexivity. Qed.

(** ** Fulfillment *)

Section Fulfillment.

Variable requests_get : kwargs -> backend_reply.
Variable now_plus_hours : Z -> string.

(** The fallback reads [req.origin], which [FlightSearchRequest] does not
    declare. *)
Lemma mock_flight_raises (req : Request.FlightSearchRequest) (g : rng) :
  _mock_flight now_plus_hours req g = Raise (AttributeError "origin").
Proof.
  unfold _mock_flight. cbn [Request.FlightSearchRequest_getattr String.eqb].
  cbn. destruct (random_uniform 100 2000 g) as [p g']. reflexivity.
Qed.

Lemma flights_for_query_raises (self : Miner)
  (req : Request.FlightSearchRequest) (g : rng) :
  flights_for_query requests_get now_plus_hours self req g
  = Raise (AttributeError "origin").
Proof.
  unfold flights_for_query, bindS.
  destruct (has_api_key self).
  - reflexivity.
  - now rewrite mock_flight_raises.
Qed.

(** Were the cities given, the fallback's constructor call would still
    raise: it passes [duration_days], and the required field is
    [duration_duration]. *)
Lemma mock_keywords_rejected (mk cur dep arr : string) (p : Q) :
  FlightSearchResponse_init
    [("market", VStr mk);
     ("category", VStr "Cheapest");
     ("price", VFloat p);
     ("currency", VStr cur);
     ("departure_time", VStr (now_plus_hours 5));
     ("arrival_time", VStr (now_plus_hours 10));
     ("departure_city", VStr dep);
     ("arrival_city", VStr arr);
     ("stops", VInt 1);
     ("carrier", VStr "MockAir");
     ("duration_days", VFloat (1 # 2))]
  = Raise (ValidationError "duration_duration").
Proof. reflexivity. Qed.

End Fulfillment.

(** The price the fallback draws lies between 100 and 2000. *)
Lemma random_uniform_mock_price (g : rng) :
  (100 <= fst (random_uniform 100 2000 g))%Q
  /\ (fst (random_uniform 100 2000 g) <= 2000)%Q.
Proof.
  unfold random_uniform, random_random, next. cbn [fst].
  pose proof (Z.mod_pos_bound (stream g (pos g)) 9007199254740992 eq_refl) as Hb.
  set (x := stream g (pos g) mod 9007199254740992) in *.
  unfold Qle, Qplus, Qminus, Qmult, Qopp. cbn [Qnum Qden].
  cbn -[Z.mul Z.add Z.le]. split; lia.
Qed.

(** C4, on the code.  For every miner, with or without an API key, and
    every batch of at least one query, [forward] raises at the first
    query, whatever the backend does: no offer list is returned. *)
Theorem miner_forward_raises
  (requests_get : kwargs -> backend_reply) (now_plus_hours : Z -> string)
  (self : Miner) (req : Request.FlightSearchRequest)
  (rest : list Request.FlightSearchRequest) (caller : option TerminalInfo)
  (g : rng) :
  miner_forward requests_get now_plus_hours self
    {| queries := req :: rest; dendrite := caller |} g
  = Raise (AttributeError "origin").
Proof.
  unfold miner_forward, bindS. cbn [queries forward_loop]. unfold bindS.
  now rewrite flights_for_query_raises.
Qed.

Example miner_forward_without_key :
  miner_forward (fun _ => RequestException) (fun _ => "2030-01-01 08:00:00")
    strict_miner (batch_from "alice") sample_rng
  = Raise (AttributeError "origin").
Proof. reflexivity. Qed.

Example miner_forward_empty_batch :
  miner_forward (fun _ => RequestException) (fun _ => "2030-01-01 08:00:00")
    strict_miner {| queries := []; dendrite := None |} sample_rng
  = Ok ({| responses := [] |}, sample_rng).
Proof. reflexivity. Qed.

(** ** Further properties of the code *)

(** X1.  [random.sample(self.airports, 2)] succeeds on two or more
    airports and returns the rows at two different positions of the
    list. *)
Theorem sample_two_distinct_positions (population : list AirportRow) (g : rng) :
  (2 <= List.length population)%nat ->
  exists origin destination i j g',
    random_sample2 population g = Ok ((origin, destination), g')
    /\ nth_error population i = Some origin
    /\ nth_error population j = Some destination
    /\ i <> j.
Proof. apply random_sample2_ok. Qed.

Lemma sample_two_distinct_positions_witness :
  exists origin destination i j g',
    random_sample2 [jfk; hnl] sample_rng = Ok ((origin, destination), g')
    /\ nth_error [jfk; hnl] i = Some origin
    /\ nth_error [jfk; hnl] j = Some destination
    /\ i <> j.
Proof.
  apply (sample_two_distinct_positions [jfk; hnl] sample_rng). simpl. lia.
Defined.

(** X2.  With permits enforced, a registered caller whose uid holds no
    validator permit is rejected with the reason "Non-validator hotkey". *)
Theorem rejected_without_permit
  (self : Miner) (synapse : FlightSearchBatchRequest) (caller : string)
  (uid : nat) :
  dendrite synapse = Some {| hotkey := Some caller |} ->
  list_index caller (hotkeys (metagraph self)) = Ok uid ->
  force_validator_permit (config_blacklist self) = true ->
  nth_error (validator_permit (metagraph self)) uid = Some false ->
  blacklist self synapse = Ok (true, "Non-validator hotkey").
Proof. apply blacklist_non_validator. Qed.

Lemma rejected_without_permit_witness :
  blacklist strict_miner (batch_from "bob") = Ok (true, "Non-validator hotkey").
Proof.
  apply (rejected_without_permit strict_miner (batch_from "bob") "bob" 1);
    reflexivity.
Defined.

(** X3.  When the markets file is empty or could not be read, the batch
    size is not positive and query generation returns the empty batch
    without reading a random number. *)
Theorem empty_batch_without_markets
  (generate_random_date : rng -> string * rng) (config : Config)
  (airports_csv : option (list AirportRow))
  (synapse : Request.FlightSearchRequest) (g : rng) :
  synthesize generate_random_date (Validator_init config None airports_csv)
    synapse g = Ok ([], g)
  /\ synthesize generate_random_date (Validator_init config (Some []) airports_csv)
       synapse g = Ok ([], g).
Proof.
  split; apply synthesize_without_markets; cbn; lia.
Qed.

(** X4.  The price of a fallback offer is drawn between 100 and 2000. *)
Theorem mock_price_range (g : rng) :
  (100 <= fst (random_uniform 100 2000 g))%Q
  /\ (fst (random_uniform 100 2000 g) <= 2000)%Q.
Proof. apply random_uniform_mock_price. Qed.

(** ** The protocol classes *)

Lemma Qltb_of_lt (x y : Q) : (x < y)%Q -> Qltb x y = true.
Proof.
  intros H. unfold Qltb. apply negb_true_iff.
  destruct (Qle_bool y x) eqn:E; [|reflexivity].
  apply Qle_bool_iff in E. exfalso. exact (Qlt_not_le _ _ H E).
Qed.

Lemma required_str_given (name : string) (kw : kwargs) (s : string) :
  required_str name kw = Ok s -> kw_get name kw = Some (VStr s).
Proof.
  unfold required_str.
  destruct (kw_get name kw) as [[| | | |]|]; try discriminate.
  now intros [= ->].
Qed.

Lemma optional_literal_allowed (name : string) (allowed : list string)
  (d : string) (kw : kwargs) (c : option string) :
  existsb (String.eqb d) allowed = true ->
  optional_literal name allowed d kw = Ok c ->
  forall s, c = Some s -> existsb (String.eqb s) allowed = true.
Proof.
  intros Hd H s Hs. subst c. unfold optional_literal in H.
  destruct (kw_get name kw) as [[|t| | |]|]; try discriminate.
  - destruct (existsb (String.eqb t) allowed) eqn:E; [|discriminate].
    now injection H as ->.
  - now injection H as ->.
Qed.

Lemma optional_int_ge_bound (name : string) (lo d : Z) (kw : kwargs)
  (a : option Z) :
  lo <= d ->
  optional_int_ge name lo d kw = Ok a ->
  forall n, a = Some n -> lo <= n.
Proof.
  intros Hd H n Hn. subst a. unfold optional_int_ge in H.
  destruct (kw_get name kw) as [[| |m| |]|]; try discriminate.
  - destruct (lo <=? m) eqn:E; [|discriminate].
    injection H as ->. now apply Z.leb_le.
  - now injection H as <-.
Qed.

Lemma existsb_eqb_In (s : string) (l : list string) :
  existsb (String.eqb s) l = true -> In s l.
Proof.
  intros H. apply existsb_exists in H as (x & Hx & E).
  apply String.eqb_eq in E. now subst.
Qed.

(** X5.  A constructed request keeps the bounds its class declares: the
    cabin class, when given, is one of the four literals, adults is at
    least 1, children and infants are at least 0; and its date and airport
    codes are the strings passed under those keywords. *)
Theorem request_init_invariants (kw : kwargs) (q : Request.FlightSearchRequest) :
  Request.FlightSearchRequest_init kw = Ok q ->
  (forall s, Request.cabinClass q = Some s -> In s Request.cabin_classes)
  /\ (forall n, Request.adults q = Some n -> 1 <= n)
  /\ (forall n, Request.children q = Some n -> 0 <= n)
  /\ (forall n, Request.infants q = Some n -> 0 <= n)
  /\ kw_get "date" kw = Some (VStr (Request.date q))
  /\ kw_get "departure_airport_code" kw
     = Some (VStr (Request.departure_airport_code q))
  /\ kw_get "arrival_airport_code" kw
     = Some (VStr (Request.arrival_airport_code q)).
Proof.
  unfold Request.FlightSearchRequest_init, bind.
  destruct (required_str "date" kw) as [d|] eqn:Hd; [|discriminate].
  destruct (required_str "departure_airport_code" kw) as [dep|] eqn:Hdep;
    [|discriminate].
  destruct (required_str "arrival_airport_code" kw) as [arr|] eqn:Harr;
    [|discriminate].
  destruct (optional_literal "cabinClass" Request.cabin_classes "Economy" kw)
    as [cab|] eqn:Hcab; [|discriminate].
  destruct (optional_int_ge "adults" 1 1 kw) as [ad|] eqn:Had; [|discriminate].
  destruct (optional_int_ge "children" 0 0 kw) as [ch|] eqn:Hch; [|discriminate].
  destruct (optional_int_ge "infants" 0 0 kw) as [inf|] eqn:Hinf; [|discriminate].
  destruct (default_str "market" "US" kw) as [mk|]; [|discriminate].
  destruct (optional_str "currency" "USD" kw) as [cur|]; [|discriminate].
  intros [= <-].
  cbn [Request.cabinClass Request.adults Request.children Request.infants
       Request.date Request.departure_airport_code
       Request.arrival_airport_code].
  repeat split.
  - intros s Hs. apply existsb_eqb_In.
    eapply optional_literal_allowed; [|exact Hcab|exact Hs]. reflexivity.
  - eapply optional_int_ge_bound; [|exact Had]. lia.
  - eapply optional_int_ge_bound; [|exact Hch]. lia.
  - eapply optional_int_ge_bound; [|exact Hinf]. lia.
  - now apply required_str_given.
  - now apply required_str_given.
  - now apply required_str_given.
Qed.

Lemma request_init_invariants_witness :
  (forall s, Request.cabinClass sample_request = Some s
             -> In s Request.cabin_classes)
  /\ (forall n, Request.adults sample_request = Some n -> 1 <= n)
  /\ (forall n, Request.children sample_request = Some n -> 0 <= n)
  /\ (forall n, Request.infants sample_request = Some n -> 0 <= n)
  /\ kw_get "date" sample_request_keywords
     = Some (VStr (Request.date sample_request))
  /\ kw_get "departure_airport_code" sample_request_keywords
     = Some (VStr (Request.departure_airport_code sample_request))
  /\ kw_get "arrival_airport_code" sample_request_keywords
     = Some (VStr (Request.arrival_airport_code sample_request)).
Proof.
  apply (request_init_invariants sample_request_keywords sample_request).
  reflexivity.
Defined.

Lemma In_existsb_eqb (s : string) (l : list string) :
  In s l -> existsb (String.eqb s) l = true.
Proof.
  intros H. apply existsb_exists. exists s. split; [exact H|].
  apply String.eqb_refl.
Qed.

(** X6.  Reading the nine declared attributes of a constructed request
    and passing them to the constructor gives the same request back: no
    attribute read raises and no value read fails validation. *)
Theorem request_round_trip (kw : kwargs) (q : Request.FlightSearchRequest) :
  Request.FlightSearchRequest_init kw = Ok q ->
  exists kw',
    request_keywords q = Ok kw'
    /\ Request.FlightSearchRequest_init kw' = Ok q.
Proof.
  intros H.
  destruct (request_init_invariants kw q H) as (Hcab & Had & Hch & Hinf & _).
  destruct q as [d dep arr cab ad ch inf mk cur].
  cbn [Request.cabinClass Request.adults Request.children Request.infants]
    in Hcab, Had, Hch, Hinf.
  eexists. split; [reflexivity|].
  unfold Request.FlightSearchRequest_init, bind.
  cbn [required_str kw_get String.eqb Ascii.eqb Bool.eqb
       Request.date Request.departure_airport_code
       Request.arrival_airport_code Request.cabinClass Request.adults
       Request.children Request.infants Request.market Request.currency].
  assert (Ecab :
    optional_literal "cabinClass" Request.cabin_classes "Economy"
      [("date", VStr d); ("departure_airport_code", VStr dep);
       ("arrival_airport_code", VStr arr);
       ("cabinClass", Request.of_option_str cab);
       ("adults", Request.of_option_int ad);
       ("children", Request.of_option_int ch);
       ("infants", Request.of_option_int inf);
       ("market", VStr mk); ("currency", Request.of_option_str cur)]
    = Ok cab).
  { unfold optional_literal. cbn [kw_get String.eqb Ascii.eqb Bool.eqb].
    destruct cab as [s|]; [|reflexivity].
    cbn [Request.of_option_str].
    now rewrite (In_existsb_eqb _ _ (Hcab s eq_refl)). }
  rewrite Ecab.
  assert (Ha : forall n, ad = Some n -> (1 <=? n) = true)
    by (intros n Hn; apply Z.leb_le; auto).
  assert (Hc : forall n, ch = Some n -> (0 <=? n) = true)
    by (intros n Hn; apply Z.leb_le; auto).
  assert (Hi : forall n, inf = Some n -> (0 <=? n) = true)
    by (intros n Hn; apply Z.leb_le; auto).
  unfold optional_int_ge, default_str, optional_str.
  cbn [kw_get String.eqb Ascii.eqb Bool.eqb].
  destruct ad as [a|], ch as [c|], inf as [i|], cur as [u|];
    cbn [Request.of_option_int Request.of_option_str];
    rewrite ?(Ha _ eq_refl), ?(Hc _ eq_refl), ?(Hi _ eq_refl);
    reflexivity.
Qed.

Lemma request_round_trip_witness :
  exists kw',
    request_keywords sample_request = Ok kw'
    /\ Request.FlightSearchRequest_init kw' = Ok sample_request.
Proof.
  apply (request_round_trip sample_request_keywords sample_request).
  reflexivity.
Defined.

Lemma response_round_trip (o : FlightSearchResponse) :
  (0 < duration_duration o)%Q -> 0 <= stops o ->
  FlightSearchResponse_init (response_keywords o) = Ok o.
Proof.
  intros Hd Hs. destruct o as [mk pr cur dt at_ dc ac st ca du].
  cbn [duration_duration stops] in Hd, Hs.
  unfold FlightSearchResponse_init, response_keywords, bind.
  cbn [market price currency departure_time arrival_time departure_city
       arrival_city stops carrier duration_duration].
  unfold required_float_gt, required_int_ge, required_float,
    required_float_or_nan, required_str, bind.
  cbn [kw_get String.eqb Ascii.eqb Bool.eqb as_float].
  apply Z.leb_le in Hs. rewrite Hs, (Qltb_of_lt _ _ Hd).
  destruct pr; reflexivity.
Qed.

(** X7.  The offers the class [FlightSearchResponse] can construct are
    exactly those with a non-negative stop count and a positive duration,
    whatever their price; the constructor applied to the fields of such an
    offer returns it. *)
Theorem well_formed_iff_bounds (o : FlightSearchResponse) :
  (well_formed o <-> (0 < duration_duration o)%Q /\ 0 <= stops o)
  /\ ((0 < duration_duration o)%Q /\ 0 <= stops o ->
      FlightSearchResponse_init (response_keywords o) = Ok o).
Proof.
  split; [split|].
  - intros [kw Hkw]. eapply init_bounds; eassumption.
  - intros [Hd Hs]. exists (response_keywords o). now apply response_round_trip.
  - intros [Hd Hs]. now apply response_round_trip.
Qed.

(** ** The ranking is determined *)

Lemma same_price_refl (x : FlightSearchResponse) (p : Q) :
  price x = Finite p -> same_price p x = true.
Proof.
  intros H. unfold same_price. rewrite H. apply Qeq_bool_iff. apply Qeq_refl.
Qed.

Lemma number_price (x : FlightSearchResponse) :
  is_number x = true -> exists p, price x = Finite p.
Proof.
  unfold is_number. destruct (price x) as [p|]; [|discriminate]. now exists p.
Qed.

Lemma sorted_head_least (first : FlightSearchResponse)
  (rest : list FlightSearchResponse) :
  is_number first = true ->
  StronglySorted le_price (first :: rest) ->
  Forall (le_price first) (first :: rest).
Proof.
  intros Hn Hs. inversion Hs; subst.
  constructor; [now apply le_price_refl|assumption].
Qed.

Lemma sorted_head_le (x y : FlightSearchResponse)
  (t : list FlightSearchResponse) :
  is_number x = true ->
  StronglySorted le_price (x :: t) -> In y (x :: t) -> le_price x y.
Proof.
  intros Hn Hs Hy. apply sorted_head_least in Hs; [|exact Hn].
  rewrite Forall_forall in Hs. now apply Hs.
Qed.

Lemma head_of_class_in (y : FlightSearchResponse) (p : Q)
  (t l : list FlightSearchResponse) :
  price y = Finite p ->
  filter (same_price p) l = filter (same_price p) (y :: t) ->
  In y l.
Proof.
  intros Hp H. simpl in H. rewrite (same_price_refl y p Hp) in H.
  assert (Hin : In y (filter (same_price p) l))
    by (rewrite H; now left).
  now apply filter_In in Hin.
Qed.

Lemma stable_sorted_unique (l1 l2 : list FlightSearchResponse) :
  Forall (fun o => is_number o = true) l1 ->
  Forall (fun o => is_number o = true) l2 ->
  StronglySorted le_price l1 ->
  StronglySorted le_price l2 ->
  (forall p, filter (same_price p) l1 = filter (same_price p) l2) ->
  l1 = l2.
Proof.
  revert l2. induction l1 as [|x t1 IH]; intros l2 N1 N2 H1 H2 Hf.
  - destruct l2 as [|y t2]; [reflexivity|].
    inversion N2 as [|? ? Ny _]; subst.
    destruct (number_price y Ny) as [q Hq].
    specialize (Hf q). simpl in Hf.
    rewrite (same_price_refl y q Hq) in Hf. discriminate.
  - inversion N1 as [|? ? Nx Nt1]; subst.
    destruct (number_price x Nx) as [p Hp].
    destruct l2 as [|y t2].
    { specialize (Hf p). simpl in Hf.
      rewrite (same_price_refl x p Hp) in Hf. discriminate. }
    inversion N2 as [|? ? Ny Nt2]; subst.
    destruct (number_price y Ny) as [q Hq].
    assert (Hxy : le_price x y).
    { apply (sorted_head_le x y t1 Nx H1).
      apply (head_of_class_in y q t2 _ Hq). apply Hf. }
    assert (Hyx : le_price y x).
    { apply (sorted_head_le y x t2 Ny H2).
      apply (head_of_class_in x p t1 _ Hp). symmetry. apply Hf. }
    assert (Hy : same_price p y = true).
    { unfold le_price in Hxy, Hyx. unfold same_price.
      rewrite Hp, Hq in *. apply Qeq_bool_iff. now apply Qle_antisym. }
    assert (x = y).
    { pose proof (Hf p) as E. simpl in E.
      rewrite (same_price_refl x p Hp), Hy in E. now injection E. }
    subst y. f_equal.
    inversion H1; inversion H2; subst.
    apply IH; try assumption.
    intros r. specialize (Hf r). simpl in Hf.
    destruct (same_price r x); [now injection Hf|exact Hf].
Qed.

(** X8.  When no price is NaN, the ranking is the only stable ascending
    arrangement: a list without NaN prices that is sorted ascending by
    price and lists the offers of each price in the order of collection is
    the ranked list.  On such prices any stable sort, Python's included,
    returns the list [sort_by_price] returns. *)
Theorem ranking_unique (batch_responses : list FlightSearchBatchResponse)
  (l : list FlightSearchResponse) :
  forallb is_number (collect batch_responses) = true ->
  forallb is_number l = true ->
  StronglySorted le_price l ->
  (forall p, filter (same_price p) l
             = filter (same_price p) (collect batch_responses)) ->
  l = ranked batch_responses.
Proof.
  intros Nc Nl Hs Hf. unfold ranked.
  apply forallb_is_number in Nc. apply forallb_is_number in Nl.
  apply stable_sorted_unique; try assumption.
  - eapply Permutation_Forall; [apply sort_perm|assumption].
  - now apply sort_sorted.
  - intros p. rewrite sort_stable. apply Hf.
Qed.

Lemma ranking_unique_witness :
  [offer "A" 100; offer "B" 100; offer "C" 150] = ranked three_peers.
Proof.
  apply (ranking_unique three_peers [offer "A" 100; offer "B" 100; offer "C" 150]).
  - reflexivity.
  - reflexivity.
  - repeat constructor; vm_compute; discriminate.
  - intros p. reflexivity.
Defined.

Lemma collect_app (a b : list FlightSearchBatchResponse) :
  collect (a ++ b) = collect a ++ collect b.
Proof. rewrite !collect_flat_map. apply flat_map_app. Qed.

(** X9.  When no price is NaN, ranking composes: ranking the batch
    responses of two groups of peers together gives the same list as
    ranking each group and then sorting the two rankings laid end to end;
    and sorting a ranked list again changes nothing. *)
Theorem ranked_of_groups (a b : list FlightSearchBatchResponse) :
  forallb is_number (collect (a ++ b)) = true ->
  ranked (a ++ b) = sort_by_price (ranked a ++ ranked b)
  /\ sort_by_price (ranked a) = ranked a.
Proof.
  intros Hn. rewrite collect_app, forallb_app in Hn.
  apply andb_true_iff in Hn as [Na Nb].
  apply forallb_is_number in Na. apply forallb_is_number in Nb.
  assert (Nsa : Forall (fun o => is_number o = true) (sort_by_price (collect a)))
    by (eapply Permutation_Forall; [apply sort_perm|assumption]).
  assert (Nsb : Forall (fun o => is_number o = true) (sort_by_price (collect b)))
    by (eapply Permutation_Forall; [apply sort_perm|assumption]).
  assert (Nab : Forall (fun o => is_number o = true) (collect a ++ collect b))
    by (apply Forall_app; now split).
  assert (Nsab : Forall (fun o => is_number o = true)
                   (sort_by_price (collect a) ++ sort_by_price (collect b)))
    by (apply Forall_app; now split).
  unfold ranked. rewrite collect_app. split.
  - apply stable_sorted_unique.
    + eapply Permutation_Forall; [apply sort_perm|assumption].
    + eapply Permutation_Forall; [apply sort_perm|assumption].
    + now apply sort_sorted.
    + now apply sort_sorted.
    + intros p. rewrite !sort_stable, !filter_app. now rewrite !sort_stable.
  - apply stable_sorted_unique.
    + eapply Permutation_Forall; [apply sort_perm|assumption].
    + assumption.
    + now apply sort_sorted.
    + now apply sort_sorted.
    + intros p. now rewrite !sort_stable.
Qed.

Lemma ranked_of_groups_witness :
  ranked (three_peers ++ negative_price_peer)
  = sort_by_price (ranked three_peers ++ ranked negative_price_peer)
  /\ sort_by_price (ranked three_peers) = ranked three_peers.
Proof.
  apply (ranked_of_groups three_peers negative_price_peer). reflexivity.
Defined.

(** X10.  When no collected price is NaN, the best price is the least
    price collected: the first ranked offer is one of the collected offers
    and no collected offer is cheaper. *)
Theorem best_price_is_least (batch_responses : list FlightSearchBatchResponse)
  (first : FlightSearchResponse) (rest : list FlightSearchResponse) :
  forallb is_number (collect batch_responses) = true ->
  ranked batch_responses = first :: rest ->
  In first (collect batch_responses)
  /\ Forall (le_price first) (collect batch_responses).
Proof.
  intros Hn Hr. apply forallb_is_number in Hn. unfold ranked in Hr.
  pose proof (sort_perm (collect batch_responses)) as Hp.
  pose proof (sort_sorted (collect batch_responses) Hn) as Hs.
  rewrite Hr in Hp, Hs.
  assert (Hin : In first (collect batch_responses))
    by (eapply Permutation_in; [apply Permutation_sym, Hp|now left]).
  split; [exact Hin|].
  eapply Permutation_Forall; [apply Permutation_sym, Hp|].
  apply sorted_head_least; [|exact Hs].
  rewrite Forall_forall in Hn. now apply Hn.
Qed.

Lemma best_price_is_least_witness :
  In (offer "Z" (-5)) (collect negative_price_peer)
  /\ Forall (le_price (offer "Z" (-5))) (collect negative_price_peer).
Proof.
  apply (best_price_is_least negative_price_peer (offer "Z" (-5))
           [offer "A" 100]); reflexivity.
Defined.

(** ** One call of forward *)

Lemma generate_query_never_returns
  (generate_random_date : rng -> string * rng) (self : Validator)
  (synapse : Request.FlightSearchRequest) (g : rng) :
  exists e, generate_query generate_random_date self synapse g = Raise e.
Proof.
  unfold generate_query, bindS.
  destruct (random_choice (markets self) g) as [[mk g1]|e]; [|now exists e].
  destruct (random_sample2 (airports self) g1) as [[[o d] g2]|e]; [|now exists e].
  destruct (generate_random_date g2) as [dt g3].
  unfold query_keywords. destruct (API self); eexists; reflexivity.
Qed.

Lemma synthesize_returns_only_empty
  (generate_random_date : rng -> string * rng) (self : Validator)
  (synapse : Request.FlightSearchRequest) (g g' : rng)
  (qs : list Request.FlightSearchRequest) :
  synthesize generate_random_date self synapse g = Ok (qs, g') ->
  qs = [] /\ g' = g.
Proof.
  unfold synthesize. destruct (range_len (batch_size self)) as [|n].
  - cbn. now intros [= <- <-].
  - simpl. unfold bindS.
    destruct (generate_query_never_returns generate_random_date self synapse g)
      as [e ->]. discriminate.
Qed.

(** X12.  For a validator built by [__init__], the outcome of query
    generation is decided by the batch size and the number of airports
    alone: the empty batch when the batch size is not positive, a
    [ValueError] from [random.sample] when fewer than two airports were
    loaded, and otherwise the validation error of the first constructor
    call.  [random.choice] never raises: a positive batch size means a
    market was loaded. *)
Theorem synthesize_after_init
  (generate_random_date : rng -> string * rng)
  (config : Config) (markets_csv : option (list string))
  (airports_csv : option (list AirportRow))
  (synapse : Request.FlightSearchRequest) (g : rng) :
  synthesize generate_random_date
    (Validator_init config markets_csv airports_csv) synapse g
  = if batch_size (Validator_init config markets_csv airports_csv) <=? 0
    then Ok ([], g)
    else if (List.length
               (airports (Validator_init config markets_csv airports_csv)) <? 2)%nat
    then Raise ValueError
    else Raise (ValidationError "departure_airport_code").
Proof.
  set (v := Validator_init config markets_csv airports_csv).
  destruct (batch_size v <=? 0) eqn:Eb.
  - apply synthesize_without_markets. now apply Z.leb_le.
  - apply Z.leb_gt in Eb.
    assert (Hm : markets v <> []).
    { intros Hnil. subst v. cbn [batch_size Validator_init markets] in Eb, Hnil.
      rewrite Hnil in Eb. cbn [List.length] in Eb. lia. }
    destruct (List.length (airports v) <? 2)%nat eqn:Ea.
    + apply Nat.ltb_lt in Ea.
      apply synthesize_first_raise; [exact Eb|].
      now apply generate_query_short_of_airports.
    + apply Nat.ltb_ge in Ea.
      apply synthesize_first_raise; [exact Eb|].
      now apply generate_query_raises.
Qed.

(** X13.  [forward] never returns an offer.  Whenever it returns a list,
    for any validator state, dispatch and request, the list is empty, no
    reward was applied, the state was not saved, and the batch that was
    dispatched was the empty batch. *)
Theorem forward_returns_only_empty
  (generate_random_date : rng -> string * rng)
  (query_miners :
     Validator -> FlightSearchBatchRequest -> rng -> list FlightSearchBatchResponse)
  (self : Validator) (synapse : Request.FlightSearchRequest) (g : rng)
  (l : list FlightSearchResponse) :
  returned (forward generate_random_date query_miners self synapse g) = Ok l ->
  l = []
  /\ backpropagated (forward generate_random_date query_miners self synapse g) = []
  /\ saved (forward generate_random_date query_miners self synapse g) = false
  /\ synthesize generate_random_date self synapse g = Ok ([], g).
Proof.
  unfold forward.
  destruct (synthesize generate_random_date self synapse g) as [[qs g']|e] eqn:Hs;
    [|discriminate].
  destruct (synthesize_returns_only_empty _ _ _ _ _ _ Hs) as [-> ->].
  unfold forward_responses.
  destruct (collect (query_miners self {| queries := []; dendrite := None |} g))
    as [|c cs] eqn:Hc.
  - cbn. intros [= <-]. repeat split.
  - destruct (sort_nonempty (c :: cs)) as (first & rest & Hr); [discriminate|].
    rewrite Hr. cbn. discriminate.
Qed.

Lemma forward_returns_only_empty_witness :
  @nil FlightSearchResponse = []
  /\ backpropagated
       (forward sample_date (fun _ _ _ => [])
          (Validator_init {| cfg_batch_size := None |} None (Some [jfk; hnl]))
          sample_request sample_rng) = []
  /\ saved
       (forward sample_date (fun _ _ _ => [])
          (Validator_init {| cfg_batch_size := None |} None (Some [jfk; hnl]))
          sample_request sample_rng) = false
  /\ synthesize sample_date
       (Validator_init {| cfg_batch_size := None |} None (Some [jfk; hnl]))
       sample_request sample_rng = Ok ([], sample_rng).
Proof.
  apply (forward_returns_only_empty sample_date (fun _ _ _ => [])
           (Validator_init {| cfg_batch_size := None |} None (Some [jfk; hnl]))
           sample_request sample_rng []).
  reflexivity.
Defined.

(** ** Admission and priority *)

Lemma list_index_lt (x : string) (l : list string) (i : nat) :
  list_index x l = Ok i -> (i < List.length l)%nat.
Proof.
  revert i. induction l as [|y t IH]; intros i; [discriminate|].
  simpl. destruct (y =? x)%string.
  - intros [= <-]. lia.
  - destruct (list_index x t) as [j|]; [|discriminate].
    cbn [bind]. intros [= <-]. specialize (IH j eq_refl). lia.
Qed.

Lemma list_index_first (x : string) (pre post : list string) :
  list_contains x pre = false ->
  list_index x (pre ++ x :: post) = Ok (List.length pre).
Proof.
  induction pre as [|y t IH]; intros H.
  - simpl. now rewrite String.eqb_refl.
  - unfold list_contains in H. simpl in H.
    apply orb_false_iff in H as [Hy Ht].
    simpl. rewrite Hy. now rewrite (IH Ht).
Qed.

(** X14.  [blacklist] returns one of three decisions and never the reason
    "Unrecognized hotkey": a rejection for a missing dendrite or hotkey, a
    rejection for a missing validator permit, or an acceptance. *)
Theorem blacklist_decisions (self : Miner) (synapse : FlightSearchBatchRequest)
  (rejected : bool) (reason : string) :
  blacklist self synapse = Ok (rejected, reason) ->
  (rejected = true /\ reason = "Missing dendrite or hotkey")
  \/ (rejected = true /\ reason = "Non-validator hotkey")
  \/ (rejected = false /\ reason = "Hotkey recognized!").
Proof.
  unfold blacklist.
  destruct (dendrite synapse) as [[[caller|]]|]; cbn [hotkey];
    try (intros [= <- <-]; now left).
  destruct (list_index caller (hotkeys (metagraph self))) as [uid|] eqn:Hi;
    [|cbn [bind]; discriminate].
  cbn [bind]. rewrite (list_index_found _ _ _ Hi), andb_false_r.
  destruct (force_validator_permit (config_blacklist self)).
  - destruct (list_getitem (validator_permit (metagraph self)) uid) as [[|]|];
      cbn [bind negb]; try discriminate; intros [= <- <-]; auto.
  - intros [= <- <-]. auto.
Qed.

Lemma blacklist_decisions_witness :
  (true = true /\ "Non-validator hotkey" = "Missing dendrite or hotkey")
  \/ (true = true /\ "Non-validator hotkey" = "Non-validator hotkey")
  \/ (true = false /\ "Non-validator hotkey" = "Hotkey recognized!").
Proof.
  apply (blacklist_decisions strict_miner (batch_from "bob") true
           "Non-validator hotkey").
  reflexivity.
Defined.

(** X15.  The setting [allow_non_registered] has no effect: two miners
    that differ in it alone decide, or raise, alike on every request. *)
Theorem allow_non_registered_has_no_effect (allow1 allow2 : bool)
  (self : Miner) (synapse : FlightSearchBatchRequest) :
  blacklist (with_allow_non_registered allow1 self) synapse
  = blacklist (with_allow_non_registered allow2 self) synapse.
Proof.
  unfold blacklist, with_allow_non_registered.
  cbn [metagraph config_blacklist allow_non_registered force_validator_permit].
  destruct (dendrite synapse) as [[[caller|]]|]; cbn [hotkey];
    try reflexivity.
  destruct (list_index caller (hotkeys (metagraph self))) as [uid|] eqn:Hi;
    [|reflexivity].
  cbn [bind]. now rewrite (list_index_found _ _ _ Hi), !andb_false_r.
Qed.

(** X16.  Whenever [blacklist] returns a decision and the registry holds
    one stake per hotkey, [priority] returns too: the zero priority for a
    request without dendrite or hotkey, and otherwise the stake at the
    position [hotkeys.index] gives for the caller's hotkey. *)
Theorem priority_defined_when_decided (self : Miner)
  (synapse : FlightSearchBatchRequest) (decision : bool * string) :
  blacklist self synapse = Ok decision ->
  List.length (stakes (metagraph self)) = List.length (hotkeys (metagraph self)) ->
  match dendrite synapse with
  | Some d =>
      match hotkey d with
      | Some caller =>
          exists uid s,
            list_index caller (hotkeys (metagraph self)) = Ok uid
            /\ nth_error (stakes (metagraph self)) uid = Some s
            /\ priority self synapse = Ok s
      | None => priority self synapse = Ok 0%Q
      end
  | None => priority self synapse = Ok 0%Q
  end.
Proof.
  unfold blacklist, priority. intros Hb Hlen.
  destruct (dendrite synapse) as [[[caller|]]|]; cbn [hotkey] in *;
    try reflexivity.
  destruct (list_index caller (hotkeys (metagraph self))) as [uid|] eqn:Hi;
    [|cbn [bind] in Hb; discriminate].
  cbn [bind]. unfold list_getitem.
  pose proof (list_index_lt _ _ _ Hi) as Hlt.
  destruct (nth_error (stakes (metagraph self)) uid) as [s|] eqn:Es.
  - exists uid, s. repeat split; auto.
  - apply nth_error_None in Es. lia.
Qed.

Lemma priority_defined_when_decided_witness :
  exists uid s,
    list_index "bob" (hotkeys (metagraph strict_miner)) = Ok uid
    /\ nth_error (stakes (metagraph strict_miner)) uid = Some s
    /\ priority strict_miner (batch_from "bob") = Ok s.
Proof.
  apply (priority_defined_when_decided strict_miner (batch_from "bob")
           (true, "Non-validator hotkey")); reflexivity.
Defined.

(** X17.  The priority of a caller is the stake at the first position of
    its hotkey in the registry; for a hotkey that is not in the registry
    [priority] raises. *)
Theorem priority_is_first_stake (self : Miner)
  (synapse : FlightSearchBatchRequest) (caller : string)
  (pre post : list string) :
  dendrite synapse = Some {| hotkey := Some caller |} ->
  list_contains caller pre = false ->
  (hotkeys (metagraph self) = pre ++ caller :: post ->
   priority self synapse
   = list_getitem (stakes (metagraph self)) (List.length pre))
  /\ (hotkeys (metagraph self) = pre ->
      priority self synapse = Raise ValueError).
Proof.
  intros Hd Hpre. unfold priority. rewrite Hd. cbn [hotkey]. split; intros ->.
  - now rewrite (list_index_first _ _ _ Hpre).
  - now rewrite (list_index_missing _ _ Hpre).
Qed.

Lemma priority_is_first_stake_witness :
  (hotkeys (metagraph strict_miner) = ["alice"] ++ "bob" :: [] ->
   priority strict_miner (batch_from "bob")
   = list_getitem (stakes (metagraph strict_miner)) (List.length ["alice"]))
  /\ (hotkeys (metagraph strict_miner) = ["alice"] ->
      priority strict_miner (batch_from "bob") = Raise ValueError).
Proof.
  apply (priority_is_first_stake strict_miner (batch_from "bob") "bob"
           ["alice"] []); reflexivity.
Defined.

(** ** Required fields *)

Lemma bind_raise {A B : Type} (m : result A) (k : A -> result B) (e : exn) :
  bind m k = Raise e -> m = Raise e \/ exists a, m = Ok a /\ k a = Raise e.
Proof.
  destruct m as [a|e']; cbn [bind]; intros H.
  - right. now exists a.
  - left. now injection H as ->.
Qed.

Lemma required_str_raises (name : string) (kw : kwargs) (e : exn) :
  required_str name kw = Raise e -> e = ValidationError name.
Proof.
  unfold required_str.
  destruct (kw_get name kw) as [[| | | |]|]; congruence.
Qed.

Lemma required_float_raises (name : string) (kw : kwargs) (e : exn) :
  required_float name kw = Raise e -> e = ValidationError name.
Proof.
  unfold required_float.
  destruct (kw_get name kw) as [[| | | |]|]; cbn [as_float]; congruence.
Qed.

Lemma required_int_ge_raises (name : string) (lo : Z) (kw : kwargs) (e : exn) :
  required_int_ge name lo kw = Raise e -> e = ValidationError name.
Proof.
  unfold required_int_ge.
  destruct (kw_get name kw) as [[| |n| |]|]; try congruence.
  destruct (lo <=? n); congruence.
Qed.

Lemma required_float_gt_raises (name : string) (lo : Q) (kw : kwargs) (e : exn) :
  required_float_gt name lo kw = Raise e -> e = ValidationError name.
Proof.
  unfold required_float_gt. intros H.
  apply bind_raise in H as [H|(x & _ & H)].
  - now apply required_float_raises in H.
  - destruct (Qltb lo x); congruence.
Qed.

Lemma required_str_absent (name : string) (kw : kwargs) :
  kw_get name kw = None -> required_str name kw = Raise (ValidationError name).
Proof. unfold required_str. now intros ->. Qed.

Lemma required_float_absent (name : string) (kw : kwargs) :
  kw_get name kw = None -> required_float name kw = Raise (ValidationError name).
Proof. unfold required_float. now intros ->. Qed.

Lemma required_float_or_nan_raises (name : string) (kw : kwargs) (e : exn) :
  required_float_or_nan name kw = Raise e -> e = ValidationError name.
Proof.
  unfold required_float_or_nan.
  destruct (kw_get name kw) as [[| | | |]|]; cbn [as_float_or_nan]; congruence.
Qed.

Lemma required_float_or_nan_absent (name : string) (kw : kwargs) :
  kw_get name kw = None ->
  required_float_or_nan name kw = Raise (ValidationError name).
Proof. unfold required_float_or_nan. now intros ->. Qed.

Lemma required_int_ge_absent (name : string) (lo : Z) (kw : kwargs) :
  kw_get name kw = None ->
  required_int_ge name lo kw = Raise (ValidationError name).
Proof. unfold required_int_ge. now intros ->. Qed.

Lemma required_float_gt_absent (name : string) (lo : Q) (kw : kwargs) :
  kw_get name kw = None ->
  required_float_gt name lo kw = Raise (ValidationError name).
Proof.
  intros H. unfold required_float_gt.
  now rewrite (required_float_absent _ _ H).
Qed.

Lemma response_init_raises (kw : kwargs) (e : exn) :
  FlightSearchResponse_init kw = Raise e -> exists field, e = ValidationError field.
Proof.
  unfold FlightSearchResponse_init. intros H.
  repeat (apply bind_raise in H as [H|(? & _ & H)];
          [eexists;
           first [ apply required_str_raises in H
                 | apply required_float_or_nan_raises in H
                 | apply required_int_ge_raises in H
                 | apply required_float_gt_raises in H ];
           exact H|]).
  discriminate.
Qed.

Lemma response_init_needs (kw : kwargs) (o : FlightSearchResponse)
  (name : string) :
  FlightSearchResponse_init kw = Ok o ->
  In name response_fields ->
  kw_get name kw <> None.
Proof.
  unfold FlightSearchResponse_init, bind. intros H Hin Habs.
  destruct (required_str "market" kw) eqn:E1; [|discriminate].
  destruct (required_float_or_nan "price" kw) eqn:E2; [|discriminate].
  destruct (required_str "currency" kw) eqn:E3; [|discriminate].
  destruct (required_str "departure_time" kw) eqn:E4; [|discriminate].
  destruct (required_str "arrival_time" kw) eqn:E5; [|discriminate].
  destruct (required_str "departure_city" kw) eqn:E6; [|discriminate].
  destruct (required_str "arrival_city" kw) eqn:E7; [|discriminate].
  destruct (required_int_ge "stops" 0 kw) eqn:E8; [|discriminate].
  destruct (required_str "carrier" kw) eqn:E9; [|discriminate].
  destruct (required_float_gt "duration_duration" 0%Q kw) eqn:E10;
    [|discriminate].
  unfold response_fields in Hin. cbn [In] in Hin.
  repeat (destruct Hin as [<-|Hin];
          [first [ rewrite (required_str_absent _ _ Habs) in *
                 | rewrite (required_float_or_nan_absent _ _ Habs) in *
                 | rewrite (required_int_ge_absent _ _ _ Habs) in *
                 | rewrite (required_float_gt_absent _ _ _ Habs) in * ];
           discriminate|]).
  exact Hin.
Qed.

(** X18.  Every field of [FlightSearchResponse] is required: when the
    keyword of any of its ten fields is absent the constructor raises a
    validation error, whatever other keywords are given. *)
Theorem response_fields_required (kw : kwargs) (name : string) :
  In name response_fields ->
  kw_get name kw = None ->
  exists field, FlightSearchResponse_init kw = Raise (ValidationError field).
Proof.
  intros Hin Habs.
  destruct (FlightSearchResponse_init kw) as [o|e] eqn:E.
  - exfalso. exact (response_init_needs kw o name E Hin Habs).
  - destruct (response_init_raises kw e E) as [field ->]. now exists field.
Qed.

Lemma response_fields_required_witness :
  exists field,
    FlightSearchResponse_init
      [("market", VStr "US"); ("category", VStr "Cheapest");
       ("price", VFloat 150); ("currency", VStr "USD");
       ("departure_time", VStr "2030-01-01 08:00:00");
       ("arrival_time", VStr "2030-01-01 13:00:00");
       ("departure_city", VStr "JFK"); ("arrival_city", VStr "HNL");
       ("stops", VInt 1); ("carrier", VStr "MockAir");
       ("duration_days", VFloat (1 # 2))]
    = Raise (ValidationError field).
Proof.
  apply (response_fields_required
           [("market", VStr "US"); ("category", VStr "Cheapest");
            ("price", VFloat 150); ("currency", VStr "USD");
            ("departure_time", VStr "2030-01-01 08:00:00");
            ("arrival_time", VStr "2030-01-01 13:00:00");
            ("departure_city", VStr "JFK"); ("arrival_city", VStr "HNL");
            ("stops", VInt 1); ("carrier", VStr "MockAir");
            ("duration_days", VFloat (1 # 2))]
           "duration_duration").
  - unfold response_fields. cbn [In]. tauto.
  - reflexivity.
Defined.

(** [FlightSearchRequest] requires its date and its two airport codes:
    when one of these keywords is absent the constructor raises the
    validation error of the first absent one among them. *)
Lemma request_fields_required (kw : kwargs) :
  (kw_get "date" kw = None ->
   Request.FlightSearchRequest_init kw = Raise (ValidationError "date"))
  /\ (forall d, kw_get "date" kw = Some (VStr d) ->
      kw_get "departure_airport_code" kw = None ->
      Request.FlightSearchRequest_init kw
      = Raise (ValidationError "departure_airport_code"))
  /\ (forall d dep, kw_get "date" kw = Some (VStr d) ->
      kw_get "departure_airport_code" kw = Some (VStr dep) ->
      kw_get "arrival_airport_code" kw = None ->
      Request.FlightSearchRequest_init kw
      = Raise (ValidationError "arrival_airport_code")).
Proof.
  unfold Request.FlightSearchRequest_init, required_str.
  repeat split.
  - now intros ->.
  - intros d -> ->. reflexivity.
  - intros d dep -> -> ->. reflexivity.
Qed.

(** ** What the outcome does not depend on *)

Lemma forward_responses_ignores_synapse (s1 s2 : Request.FlightSearchRequest)
  (batch_responses : list FlightSearchBatchResponse) :
  forward_responses s1 batch_responses = forward_responses s2 batch_responses.
Proof.
  unfold forward_responses.
  destruct (collect batch_responses) as [|c cs]; [reflexivity|].
  destruct (sort_by_price (c :: cs)) as [|first rest]; reflexivity.
Qed.

(** X19.  For a validator built by [__init__], nothing of the incoming
    request influences a call of [forward]: under the same random draws
    and the same answers of the miners, two requests give the same value
    or exception, the same rewards and the same saving of state. *)
Theorem forward_ignores_synapse
  (generate_random_date : rng -> string * rng)
  (query_miners :
     Validator -> FlightSearchBatchRequest -> rng -> list FlightSearchBatchResponse)
  (config : Config) (markets_csv : option (list string))
  (airports_csv : option (list AirportRow))
  (s1 s2 : Request.FlightSearchRequest) (g : rng) :
  forward generate_random_date query_miners
    (Validator_init config markets_csv airports_csv) s1 g
  = forward generate_random_date query_miners
      (Validator_init config markets_csv airports_csv) s2 g.
Proof.
  set (v := Validator_init config markets_csv airports_csv).
  unfold forward, synthesize.
  rewrite (generate_queries_ignore_synapse generate_random_date
             (range_len (batch_size v)) v s1 s2 g eq_refl).
  destruct (generate_queries generate_random_date (range_len (batch_size v)) v
              s2 g) as [[qs g']|e]; [|reflexivity].
  apply forward_responses_ignores_synapse.
Qed.

(** X20.  The outcome of [Miner.forward] depends on the batch alone, and
    only on whether it is empty: two miners, with or without API key,
    under any two pricing backends and clocks, answer a batch alike. *)
Theorem miner_forward_ignores_backend
  (requests_get1 requests_get2 : kwargs -> backend_reply)
  (now_plus_hours1 now_plus_hours2 : Z -> string)
  (self1 self2 : Miner) (synapse : FlightSearchBatchRequest) (g : rng) :
  miner_forward requests_get1 now_plus_hours1 self1 synapse g
  = miner_forward requests_get2 now_plus_hours2 self2 synapse g.
Proof.
  unfold miner_forward, bindS.
  destruct (queries synapse) as [|req rest]; [reflexivity|].
  cbn [forward_loop]. unfold bindS.
  now rewrite !flights_for_query_raises.
Qed.
